(** * Build-metrics trackers: a shallow embedding and its properties

    The development embeds the two monitoring scripts of the repository,
    [monitoring/track-build-time.py] (class [BuildTimeTracker]) and
    [monitoring/size-tracker.py] (class [SizeTracker]), and proves properties
    of their history store, formatters, reports and CSV export.

    Conventions of the embedding.
    - A Python [float] is the rational number it denotes ([Q]); rounding of
      arithmetic results is not modelled.  Division by [1024.0], [//], [%]
      and the [.Nf] formats are exact on the denoted value, so the
      formatters are modelled exactly.
    - A Python [int] is a [Z]; a [str] is a [string], one character per
      code point (the scripts' data is ASCII).
    - [print] calls are collected: an operation returns the list of the
      texts it printed, one element per call, together with its result or
      the exception it raised.
    - The external world (the [docker] subprocesses, the clock, the file
      system's willingness to open and write a file) is an explicit
      argument of the operations that consult it. *)

From Stdlib Require Import ZArith QArith Qround Qabs List String Ascii Bool Lia.
From Stdlib Require Import DecimalString Lqa.
Import ListNotations.

Open Scope string_scope.

(** ** Python primitives used by the scripts *)

Module Py.

(** [str(z)] for an [int]. *)
Definition str_int (z : Z) : string :=
  NilZero.string_of_int (Z.to_int z).

(** [str(b)] for a [bool]. *)
Definition str_bool (b : bool) : string :=
  if b then "True" else "False".

(** [s * n]. *)
Fixpoint str_mul (s : string) (n : nat) : string :=
  match n with
  | O => ""
  | S k => s ++ str_mul s k
  end.

(** [s[:n]]. *)
Fixpoint str_take (n : nat) (s : string) : string :=
  match n, s with
  | S k, String c r => String c (str_take k r)
  | _, _ => ""
  end.

(** [f"{s:<w}"]: left-aligned in a field of at least [w] characters. *)
Definition ljust (w : nat) (s : string) : string :=
  s ++ str_mul " " (w - String.length s).

(** [f"{s:>w}"]: right-aligned in a field of at least [w] characters. *)
Definition rjust (w : nat) (s : string) : string :=
  str_mul " " (w - String.length s) ++ s.

(** [l[-n:]] for [n > 0]. *)
Definition last_n {A : Type} (n : nat) (l : list A) : list A :=
  skipn (List.length l - n) l.

(** [s.count(sub)] for a non-empty [sub]: occurrences that do not
    overlap, found from left to right.  [skip] counts the characters of
    the occurrence just found that are still to be passed over. *)
Fixpoint count_from (sub : string) (skip : nat) (s : string) : nat :=
  match s with
  | EmptyString => O
  | String _ r =>
      match skip with
      | S k => count_from sub k r
      | O =>
          if String.prefix sub s
          then S (count_from sub (String.length sub - 1) r)
          else count_from sub O r
      end
  end.

Definition str_count (s sub : string) : Z :=
  Z.of_nat (count_from sub O s).

(** Comparisons of floats. *)
Definition Qltb (a b : Q) : bool := negb (Qle_bool b a).
Definition Qeqb0 (a : Q) : bool := Qeq_bool a 0.

(** Rounding to the nearest integer, ties to the even one: the rounding of
    [round] and of the [.Nf] formats. *)
Definition round_half_even (x : Q) : Z :=
  let f := Qfloor x in
  match Qcompare (x - inject_Z f) (1 # 2) with
  | Lt => f
  | Gt => (f + 1)%Z
  | Eq => if Z.even f then f else (f + 1)%Z
  end.

Definition pow10 (n : nat) : Z := (10 ^ Z.of_nat n)%Z.

(** [round(x, n)]. *)
Definition round_n (n : nat) (x : Q) : Q :=
  let a := round_half_even (Qabs x * inject_Z (pow10 n)) in
  (if Qltb x 0 then Qopp (a # 1) else (a # 1)) / inject_Z (pow10 n).

(** [s.zfill(w)] for a string of digits. *)
Definition zfill (w : nat) (s : string) : string :=
  str_mul "0" (w - String.length s) ++ s.

(** [f"{x:.Nf}"] for [N > 0]: the sign, the integer part, a point and
    exactly [N] digits. *)
Definition format_f (n : nat) (x : Q) : string :=
  let a := round_half_even (Qabs x * inject_Z (pow10 n)) in
  (if Qltb x 0 then "-" else "")
    ++ str_int (a / pow10 n) ++ "." ++ zfill n (str_int (a mod pow10 n)).

(** The digits of a fraction [0 <= r < 1], at most [fuel] of them, none
    after the last one that is not zero. *)
Fixpoint frac_digits (fuel : nat) (r : Q) : string :=
  match fuel with
  | O => ""
  | S k =>
      if Qeqb0 r then ""
      else
        let d := Qfloor (r * 10) in
        str_int d ++ frac_digits k (r * 10 - inject_Z d)
  end.

(** [str(x)] for a float whose shortest representation is positional (a
    value with at most 17 decimals and a magnitude between [1e-4] and
    [1e16], or zero): the values [round(_, 2)] produces. *)
Definition str_float (x : Q) : string :=
  let a := Qabs x in
  let i := Qfloor a in
  let ds := frac_digits 17 (a - inject_Z i) in
  (if Qltb x 0 then "-" else "")
    ++ str_int i ++ "." ++ (if String.eqb ds "" then "0" else ds).

(** The newline character, written [\n] in the scripts. *)
Definition nl : string := String "010"%char "".

(** [int(x)] on a float: truncation towards zero. *)
Definition int_of_float (x : Q) : Z :=
  if Qltb x 0 then Qceiling x else Qfloor x.

(** [x // y] and [x % y] on floats, for [y > 0]. *)
Definition floordiv (x y : Q) : Q := inject_Z (Qfloor (x / y)).
Definition modulo (x y : Q) : Q := x - y * inject_Z (Qfloor (x / y)).

(** A number that is an [int] or a [float]. *)
Inductive number : Type :=
| Int (z : Z)
| Float (q : Q).

Definition number_value (x : number) : Q :=
  match x with
  | Int z => inject_Z z
  | Float q => q
  end.

Definition str_number (x : number) : string :=
  match x with
  | Int z => str_int z
  | Float q => str_float q
  end.

(** [round(x, 2)] keeps an [int] an [int]. *)
Definition round2_number (x : number) : number :=
  match x with
  | Int z => Int z
  | Float q => Float (round_n 2 q)
  end.

(** Exceptions the scripts can raise. *)
Inductive exn : Type :=
| ZeroDivisionError
| KeyError (key : string)
| TypeError
| JSONDecodeError
| OSError.

(** An operation that prints: the texts printed, in order, and the value
    returned or the exception raised. *)
Definition io (A : Type) : Type := (list string * (A + exn))%type.

Definition ret {A : Type} (a : A) : io A := ([], inl a).
Definition raise {A : Type} (e : exn) : io A := ([], inr e).
Definition print (s : string) : io unit := ([s], inl tt).

Definition bind {A B : Type} (m : io A) (f : A -> io B) : io B :=
  match m with
  | (o, inl a) => let (o', r) := f a in ((o ++ o')%list, r)
  | (o, inr e) => (o, inr e)
  end.

Definition printed {A : Type} (m : io A) : list string := fst m.
Definition outcome {A : Type} (m : io A) : A + exn := snd m.

Definition returns {A : Type} (m : io A) : Prop :=
  exists a, outcome m = inl a.
Definition raises {A : Type} (m : io A) (e : exn) : Prop :=
  outcome m = inr e.

(** [a / b] on floats (and on ints, which gives a float). *)
Definition div (a b : Q) : io Q :=
  if Qeqb0 b then raise ZeroDivisionError else ret (a / b).

(** [sum(...)] of floats. *)
Definition sum (l : list Q) : Q := fold_left Qplus l 0.

(** [len(l)] as a number. *)
Definition len {A : Type} (l : list A) : Q := inject_Z (Z.of_nat (List.length l)).

End Py.

Declare Scope io_scope.
Delimit Scope io_scope with io.
Notation "x <- m ;; k" := (Py.bind m (fun x => k))
(at level 61, m at next level, right associativity) : io_scope.
Notation "m ;;; k" := (Py.bind m (fun _ => k))
(at level 61, right associativity) : io_scope.

(** ** The history store shared by the two trackers

    Both classes keep [self.history], a dictionary with one key holding the
    list of entries, and a backing JSON file.  [json.dump] and [json.load]
    are library code: the file is modelled by the document it holds, and a
    file whose text does not parse by [Unparsable]. *)

Module Store.

Inductive file_content (A : Type) : Type :=
| Document (entries : list A)
| Unparsable.
Arguments Document {A} entries.
Arguments Unparsable {A}.

(** What the file system does with [open(path, 'w')] followed by
    [json.dump]: both succeed; [open] fails (permission denied) and the
    file is untouched; [open] succeeds, which empties the file, and the
    write breaks off (file system full). *)
Inductive write_outcome : Type :=
| WriteOk
| OpenFails
| WriteFails.

(** A tracker object and its backing file ([None]: no file yet). *)
Record state (A : Type) : Type := mkState {
  history : list A;
  file : option (file_content A)
}.
Arguments mkState {A} history file.
Arguments history {A} s.
Arguments file {A} s.

(** The number of records a reader finds in the file. *)
Definition disk_count {A : Type} (f : option (file_content A)) : option nat :=
  match f with
  | None => Some O
  | Some (Document h) => Some (List.length h)
  | Some Unparsable => None
  end.

End Store.

(** ** [monitoring/track-build-time.py] *)

Module BuildTimeTracker.
Import Py Store.
Local Open Scope io_scope.

(** The value under ["image_size_bytes"].  [track_build] always stores the
    key, with [None] when the inspection failed; an entry read from a file
    may lack it, which only [export_csv] (reading it with [.get]) allows
    for. *)
Inductive size_field : Type :=
| SizeAbsent
| SizeNone
| SizeInt (z : Z).

(** One entry of [history["builds"]]. *)
Record build : Type := mkBuild {
  timestamp : string;
  commit : string;
  build_type : string;
  image_name : string;
  dockerfile : string;
  no_cache : bool;
  duration_seconds : Q;
  duration_human : string;
  cache_hits : Z;
  total_steps : Z;
  cache_hit_rate : number;
  image_size_bytes : size_field;
  image_size_human : string
}.

Definition tracker : Type := Store.state build.

Definition _load_history (f : option (file_content build))
  : list build + exn :=
  match f with
  | Some (Document h) => inl h
  | Some Unparsable => inr JSONDecodeError
  | None => inl []
  end.

(** [__init__]: the tracker starts with the history read from the file. *)
Definition init (f : option (file_content build)) : tracker + exn :=
  match _load_history f with
  | inl h => inl (mkState h f)
  | inr e => inr e
  end.

Definition _save_history (w : write_outcome) (t : tracker)
  : tracker * (unit + exn) :=
  match w with
  | WriteOk => (mkState (history t) (Some (Document (history t))), inl tt)
  | OpenFails => (t, inr OSError)
  | WriteFails => (mkState (history t) (Some Unparsable), inr OSError)
  end.

Definition format_duration (seconds : Q) : string :=
  if Qltb seconds 60 then
    format_f 2 seconds ++ "s"
  else if Qltb seconds 3600 then
    let minutes := int_of_float (floordiv seconds 60) in
    let secs := int_of_float (modulo seconds 60) in
    str_int minutes ++ "m " ++ str_int secs ++ "s"
  else
    let hours := int_of_float (floordiv seconds 3600) in
    let minutes := int_of_float (floordiv (modulo seconds 3600) 60) in
    str_int hours ++ "h " ++ str_int minutes ++ "m".

(** What [subprocess.run(cmd, check=True)] did. *)
Inductive run_result : Type :=
| Completed (stdout : string)
| CalledProcessError (stderr : string).

(** The dictionary [build_image] returns. *)
Inductive build_result : Type :=
| BuildSucceeded (duration : Q) (hits steps : Z) (rate : number)
                 (output : string)
| BuildFailed (duration : Q) (error : string).

Definition success (r : build_result) : bool :=
  match r with
  | BuildSucceeded _ _ _ _ _ => true
  | BuildFailed _ _ => false
  end.

(** [build_image]; [run] is the outcome of the [docker build] subprocess
    and [elapsed] the difference of the two clock readings. *)
Definition build_image (dockerfile context image : string) (nocache : bool)
    (run : run_result) (elapsed : Q) : io build_result :=
  print (nl ++ "Building image: " ++ image) ;;;
  print ("Dockerfile: " ++ dockerfile) ;;;
  print ("Context: " ++ context) ;;;
  print ("No cache: " ++ str_bool nocache) ;;;
  print (str_mul "-" 60) ;;;
  match run with
  | Completed output =>
      let hits := str_count output "CACHED" in
      let steps := str_count output "Step " in
      let rate :=
        if (0 <? steps)%Z
        then Float (inject_Z hits / inject_Z steps * 100)
        else Int 0 in
      print ("✓ Build completed in " ++ format_duration elapsed) ;;;
      print ("  Cache hits: " ++ str_int hits ++ "/" ++ str_int steps
             ++ " (" ++ format_f 1 (number_value rate) ++ "%)") ;;;
      ret (BuildSucceeded elapsed hits steps rate output)
  | CalledProcessError stderr =>
      print ("✗ Build failed after " ++ format_duration elapsed) ;;;
      print ("Error: " ++ stderr) ;;;
      ret (BuildFailed elapsed stderr)
  end.

(** What the [docker inspect] subprocess of [get_image_size] gave: a size,
    or any failure (of the subprocess or of [int(...)]). *)
Inductive inspection : Type :=
| Inspected (size : Z)
| InspectionFailed.

Definition get_image_size (image_name : string) (i : inspection) : option Z :=
  match i with
  | Inspected z => Some z
  | InspectionFailed => None
  end.

(** The loop of [get_human_readable_size] over the units that remain, and
    the [return] after it. *)
Fixpoint size_ladder (units : list string) (size_bytes : Q) : string :=
  match units with
  | unit :: rest =>
      if Qltb size_bytes 1024
      then format_f 2 size_bytes ++ " " ++ unit
      else size_ladder rest (size_bytes / 1024)
  | [] => format_f 2 size_bytes ++ " TB"
  end.

Definition get_human_readable_size (size_bytes : option Q) : string :=
  match size_bytes with
  | None => "N/A"
  | Some b => size_ladder ["B"; "KB"; "MB"; "GB"] b
  end.

(** What [track_build] asks of the outside world. *)
Record world : Type := mkWorld {
  run : run_result;            (* the [docker build] subprocess *)
  elapsed : Q;                 (* its wall-clock duration *)
  inspected : inspection;      (* the [docker inspect] subprocess *)
  now : string;                (* [datetime.utcnow().isoformat()] *)
  write : write_outcome        (* the attempt to rewrite the backing file *)
}.

(** [x or "unknown"]. *)
Definition or_unknown (x : option string) : string :=
  match x with
  | Some s => if String.eqb s "" then "unknown" else s
  | None => "unknown"
  end.

Definition size_of_inspection (s : option Z) : size_field :=
  match s with
  | Some z => SizeInt z
  | None => SizeNone
  end.

Definition track_build (dockerfile context image btype : string)
    (commit_sha : option string) (nocache : bool) (w : world) (t : tracker)
  : tracker * io (option build) :=
  match build_image dockerfile context image nocache (run w) (elapsed w) with
  | (out, inr e) => (t, (out, inr e))
  | (out, inl (BuildFailed _ _)) =>
      (t, ((out ++ [(nl ++ "Build failed - not recording metrics")%string])%list,
           inl None))
  | (out, inl (BuildSucceeded duration hits steps rate _)) =>
      let image_size := get_image_size image (inspected w) in
      let entry := {|
        timestamp := now w;
        commit := or_unknown commit_sha;
        build_type := btype;
        image_name := image;
        dockerfile := dockerfile;
        no_cache := nocache;
        duration_seconds := round_n 2 duration;
        duration_human := format_duration duration;
        cache_hits := hits;
        total_steps := steps;
        cache_hit_rate := round2_number rate;
        image_size_bytes := size_of_inspection image_size;
        image_size_human :=
          get_human_readable_size (option_map inject_Z image_size)
      |} in
      let appended := mkState (history t ++ [entry])%list (file t) in
      match _save_history (write w) appended with
      | (t', inl _) => (t', (out, inl (Some entry)))
      | (t', inr e) => (t', (out, inr e))
      end
  end.

Definition print_build_summary (entry : build) : io unit :=
  print (nl ++ str_mul "=" 70) ;;;
  print "Build Summary" ;;;
  print (str_mul "=" 70) ;;;
  print ("Timestamp:       " ++ timestamp entry) ;;;
  print ("Commit:          " ++ commit entry) ;;;
  print ("Build Type:      " ++ build_type entry) ;;;
  print ("Image:           " ++ image_name entry) ;;;
  print "" ;;;
  print ("Duration:        " ++ duration_human entry) ;;;
  print ("Image Size:      " ++ image_size_human entry) ;;;
  print ("Cache Hits:      " ++ str_int (cache_hits entry) ++ "/"
         ++ str_int (total_steps entry)
         ++ " (" ++ str_number (cache_hit_rate entry) ++ "%)") ;;;
  print ("No Cache Build:  " ++ (if no_cache entry then "Yes" else "No")) ;;;
  print (str_mul "=" 70 ++ nl).

(** *** Reports *)

Definition non_empty {A : Type} (l : list A) : bool :=
  match l with
  | [] => false
  | _ :: _ => true
  end.

(** [[b for b in builds if b['build_type'] == ty]] *)
Definition of_type (ty : string) (builds : list build) : list build :=
  filter (fun b => String.eqb (build_type b) ty) builds.

(** [sum(b['duration_seconds'] for b in group) / len(group)] *)
Definition mean_duration (group : list build) : io Q :=
  div (sum (map duration_seconds group)) (len group).

(** [sum(b['cache_hit_rate'] for b in group) / len(group)] *)
Definition mean_cache_rate (group : list build) : io Q :=
  div (sum (map (fun b => number_value (cache_hit_rate b)) group)) (len group).

Definition multi_stage_section (multi_stage : list build) : io unit :=
  if non_empty multi_stage then
    print "Multi-Stage Builds:" ;;;
    print (str_mul "-" 80) ;;;
    avg_duration <- mean_duration multi_stage ;;
    avg_cache_rate <- mean_cache_rate multi_stage ;;
    let cached_builds := filter (fun b => negb (no_cache b)) multi_stage in
    let no_cache_builds := filter no_cache multi_stage in
    print ("  Total builds:           "
           ++ str_int (Z.of_nat (List.length multi_stage))) ;;;
    print ("  Average duration:       " ++ format_duration avg_duration) ;;;
    print ("  Average cache hit rate: " ++ format_f 1 avg_cache_rate ++ "%") ;;;
    (if non_empty cached_builds then
       avg_cached <- mean_duration cached_builds ;;
       print ("  With cache:             " ++ format_duration avg_cached)
     else ret tt) ;;;
    (if non_empty no_cache_builds then
       avg_no_cache <- mean_duration no_cache_builds ;;
       print ("  Without cache:          " ++ format_duration avg_no_cache)
     else ret tt) ;;;
    print ""
  else ret tt.

Definition single_stage_section (single_stage : list build) : io unit :=
  if non_empty single_stage then
    print "Single-Stage Builds:" ;;;
    print (str_mul "-" 80) ;;;
    avg_duration <- mean_duration single_stage ;;
    print ("  Total builds:           "
           ++ str_int (Z.of_nat (List.length single_stage))) ;;;
    print ("  Average duration:       " ++ format_duration avg_duration) ;;;
    print ""
  else ret tt.

(** The lines of the "Build Time Comparison" block, printed when the
    single-stage mean is above the multi-stage mean. *)
Definition comparison_lines (multi_avg single_avg improvement : Q)
  : list string :=
  [ "Build Time Comparison:";
    str_mul "-" 80;
    "  Multi-stage is " ++ format_f 1 improvement ++ "% faster";
    "  Average time saved: " ++ format_duration (single_avg - multi_avg);
    "" ].

Fixpoint print_all (lines : list string) : io unit :=
  match lines with
  | [] => ret tt
  | l :: rest => print l ;;; print_all rest
  end.

Definition comparison_section (multi_stage single_stage : list build)
  : io unit :=
  if non_empty multi_stage && non_empty single_stage then
    multi_avg <- mean_duration multi_stage ;;
    single_avg <- mean_duration single_stage ;;
    if Qltb multi_avg single_avg then
      ratio <- div (single_avg - multi_avg) single_avg ;;
      let improvement := ratio * 100 in
      print_all (comparison_lines multi_avg single_avg improvement)
    else ret tt
  else ret tt.

Definition recent_header : string :=
  ljust 20 "Date" ++ " " ++ ljust 15 "Type" ++ " " ++ ljust 12 "Duration"
    ++ " " ++ ljust 10 "Cache" ++ " " ++ ljust 12 "Size".

Definition recent_row (b : build) : string :=
  let date := str_take 19 (timestamp b) in
  let cache := format_f 1 (number_value (cache_hit_rate b)) ++ "%" in
  ljust 20 date ++ " " ++ ljust 15 (build_type b) ++ " "
    ++ ljust 12 (duration_human b) ++ " " ++ ljust 10 cache ++ " "
    ++ ljust 12 (image_size_human b).

Definition recent_section (builds : list build) : io unit :=
  print "Recent Builds (Last 5):" ;;;
  print (str_mul "-" 80) ;;;
  print recent_header ;;;
  print (str_mul "-" 80) ;;;
  print_all (map recent_row (last_n 5 builds)) ;;;
  print (str_mul "=" 80 ++ nl).

Definition generate_performance_report (t : tracker) : io unit :=
  let builds := history t in
  if non_empty builds then
    print (nl ++ str_mul "=" 80) ;;;
    print "Build Performance Report" ;;;
    print (str_mul "=" 80) ;;;
    print ("Total Builds Tracked: " ++ str_int (Z.of_nat (List.length builds))) ;;;
    print "" ;;;
    let multi_stage := of_type "multi-stage" builds in
    let single_stage := of_type "single-stage" builds in
    multi_stage_section multi_stage ;;;
    single_stage_section single_stage ;;;
    comparison_section multi_stage single_stage ;;;
    recent_section builds
  else
    print "No historical data available".

(** [b['image_size_bytes']] *)
Definition size_item (b : build) : io (option Z) :=
  match image_size_bytes b with
  | SizeAbsent => raise (KeyError "image_size_bytes")
  | SizeNone => ret None
  | SizeInt z => ret (Some z)
  end.

(** The truth value of a size in [if b['image_size_bytes']]. *)
Definition truthy (s : option Z) : bool :=
  match s with
  | Some z => negb (z =? 0)%Z
  | None => false
  end.

(** [[b['image_size_bytes'] for b in group if b['image_size_bytes']]] *)
Fixpoint truthy_sizes (group : list build) : io (list Z) :=
  match group with
  | [] => ret []
  | b :: rest =>
      s <- size_item b ;;
      sizes <- truthy_sizes rest ;;
      ret (match s with
           | Some z => if truthy s then z :: sizes else sizes
           | None => sizes
           end)
  end.

(** [sum(b['image_size_bytes'] for b in group if b['image_size_bytes'])
     / len([b for b in group if b['image_size_bytes']])] *)
Definition mean_size (group : list build) : io Q :=
  sizes <- truthy_sizes group ;;
  div (sum (map inject_Z sizes)) (len sizes).

(** The block under [# Duration comparison]. *)
Definition duration_comparison (multi_stage single_stage : list build)
  : io unit :=
  multi_avg_duration <- mean_duration multi_stage ;;
  single_avg_duration <- mean_duration single_stage ;;
  ratio <- div (single_avg_duration - multi_avg_duration) single_avg_duration ;;
  let duration_improvement := ratio * 100 in
  print (nl ++ "Build Duration:") ;;;
  print ("  Multi-Stage:  " ++ format_duration multi_avg_duration) ;;;
  print ("  Single-Stage: " ++ format_duration single_avg_duration) ;;;
  print ("  Improvement:  " ++ format_f 1 duration_improvement ++ "% faster").

(** The block under [# Size comparison]. *)
Definition size_comparison (multi_stage single_stage : list build)
  : io unit :=
  multi_avg_size <- mean_size multi_stage ;;
  single_avg_size <- mean_size single_stage ;;
  ratio <- div (single_avg_size - multi_avg_size) single_avg_size ;;
  let size_reduction := ratio * 100 in
  print (nl ++ "Image Size:") ;;;
  print ("  Multi-Stage:  " ++ get_human_readable_size (Some multi_avg_size)) ;;;
  print ("  Single-Stage: " ++ get_human_readable_size (Some single_avg_size)) ;;;
  print ("  Reduction:    " ++ format_f 1 size_reduction ++ "% smaller").

Definition compare_builds (t : tracker) : io unit :=
  let builds := history t in
  let multi_stage := of_type "multi-stage" builds in
  let single_stage := of_type "single-stage" builds in
  if negb (non_empty multi_stage) || negb (non_empty single_stage) then
    print "Need both multi-stage and single-stage builds for comparison"
  else
    print (nl ++ str_mul "=" 70) ;;;
    print "Multi-Stage vs Single-Stage Comparison" ;;;
    print (str_mul "=" 70) ;;;
    duration_comparison multi_stage single_stage ;;;
    size_comparison multi_stage single_stage ;;;
    print (str_mul "=" 70 ++ nl).

(** *** CSV export *)

Definition csv_header : string :=
  "timestamp,commit,build_type,image_name,duration_seconds,cache_hits,total_steps,cache_hit_rate,image_size_bytes,no_cache"
    ++ nl.

(** [f"{build.get('image_size_bytes', 0)}"]: the default is taken only
    when the key is absent. *)
Definition size_cell (s : size_field) : string :=
  match s with
  | SizeAbsent => str_int 0
  | SizeNone => "None"
  | SizeInt z => str_int z
  end.

(** The ten values of a row, in the order they are written. *)
Definition csv_cells (b : build) : list string :=
  [ timestamp b; commit b; build_type b; image_name b;
    str_float (duration_seconds b); str_int (cache_hits b);
    str_int (total_steps b); str_number (cache_hit_rate b);
    size_cell (image_size_bytes b); str_bool (no_cache b) ].

(** The texts of the ten [f.write] calls for one build: each value is
    followed by a comma, the last one by a newline. *)
Fixpoint csv_writes (cells : list string) : list string :=
  match cells with
  | [] => []
  | [c] => [c ++ nl]
  | c :: rest => (c ++ ",") :: csv_writes rest
  end.

(** [export_csv]: the text written to the CSV file ([None] when no file is
    opened) and what is printed. *)
Definition export_csv (filename : string) (t : tracker)
  : option string * io unit :=
  if non_empty (history t) then
    (Some (String.concat ""
             (csv_header :: flat_map (fun b => csv_writes (csv_cells b)) (history t))),
     print ("Data exported to " ++ filename))
  else
    (None, print "No data to export").

(** *** The command line

    [argparse] is library code: [main] is modelled from the parsed
    arguments on. *)

Record args : Type := mkArgs {
  arg_dockerfile : string;
  arg_context : string;
  arg_image : string;
  arg_type : string;
  arg_commit : option string;
  arg_no_cache : bool;
  arg_report : bool;
  arg_compare : bool;
  arg_export_csv : bool;
  arg_data_file : string
}.

(** How a run of [main] ends: it returns, [sys.exit(status)] is called, or
    an exception escapes. *)
Inductive ending : Type :=
| Returned
| Exited (status : Z)
| Raised (e : exn).

(** What a run of [main] leaves behind: the texts printed, the backing
    file, the CSV file written (if any) and how the run ended. *)
Record run_of_main : Type := mkRun {
  main_printed : list string;
  main_file : option (file_content build);
  main_csv : option string;
  main_ending : ending
}.

Definition ending_of (r : unit + exn) : ending :=
  match r with
  | inl _ => Returned
  | inr e => Raised e
  end.

Definition main (a : args) (w : world) (f : option (file_content build))
  : run_of_main :=
  match init f with
  | inr e => mkRun [] f None (Raised e)
  | inl tracker =>
      if arg_report a then
        let r := generate_performance_report tracker in
        mkRun (printed r) f None (ending_of (outcome r))
      else if arg_compare a then
        let r := compare_builds tracker in
        mkRun (printed r) f None (ending_of (outcome r))
      else if arg_export_csv a then
        let r := export_csv "build-history.csv" tracker in
        mkRun (printed (snd r)) f (fst r) (ending_of (outcome (snd r)))
      else
        let tracking := ("Tracking " ++ arg_type a ++ " build...")%string in
        match track_build (arg_dockerfile a) (arg_context a) (arg_image a)
                (arg_type a) (arg_commit a) (arg_no_cache a) w tracker with
        | (t', (out, inr e)) =>
            mkRun (tracking :: out)%list (file t') None (Raised e)
        | (t', (out, inl (Some entry))) =>
            mkRun (tracking :: out
                     ++ printed (print_build_summary entry)
                     ++ [("Data saved to " ++ arg_data_file a)%string])%list
                  (file t') None Returned
        | (t', (out, inl None)) =>
            mkRun (tracking :: out ++ ["Build tracking failed"])%list
                  (file t') None (Exited 1)
        end
  end.

End BuildTimeTracker.

(** ** [monitoring/size-tracker.py] *)

Module SizeTracker.
Import Py Store.
Local Open Scope io_scope.

(** The dictionaries under ["multi_stage"] and ["single_stage"]. *)
Record image_info : Type := mkImage {
  image : string;
  size_bytes : Z;
  size_human : string
}.

(** The dictionary under ["reduction"]. *)
Record reduction_info : Type := mkReduction {
  bytes : Z;
  human : string;
  percent : Q
}.

(** One entry of [history["entries"]]. *)
Record entry : Type := mkEntry {
  timestamp : string;
  commit : string;
  multi_stage : image_info;
  single_stage : image_info;
  reduction : reduction_info
}.

Definition tracker : Type := Store.state entry.

Definition _load_history (f : option (file_content entry))
  : list entry + exn :=
  match f with
  | Some (Document h) => inl h
  | Some Unparsable => inr JSONDecodeError
  | None => inl []
  end.

Definition init (f : option (file_content entry)) : tracker + exn :=
  match _load_history f with
  | inl h => inl (mkState h f)
  | inr e => inr e
  end.

Definition _save_history (w : write_outcome) (t : tracker)
  : tracker * (unit + exn) :=
  match w with
  | WriteOk => (mkState (history t) (Some (Document (history t))), inl tt)
  | OpenFails => (t, inr OSError)
  | WriteFails => (mkState (history t) (Some Unparsable), inr OSError)
  end.

(** What the [docker inspect] subprocess of [get_image_size] did. *)
Inductive inspection : Type :=
| Inspected (size : Z)
| NotFound
| Failed (message : string).

Definition get_image_size (image_name : string) (i : inspection)
  : io (option Z) :=
  match i with
  | Inspected z => ret (Some z)
  | NotFound =>
      print ("Error: Image " ++ image_name ++ " not found") ;;; ret None
  | Failed e =>
      print ("Error getting image size: " ++ e) ;;; ret None
  end.

Fixpoint size_ladder (units : list string) (size_bytes : Q) : string :=
  match units with
  | unit :: rest =>
      if Qltb size_bytes 1024
      then format_f 2 size_bytes ++ " " ++ unit
      else size_ladder rest (size_bytes / 1024)
  | [] => format_f 2 size_bytes ++ " TB"
  end.

(** This variant has no case for [None]: the first comparison
    [None < 1024.0] raises [TypeError]. *)
Definition get_human_readable_size (size_bytes : option Q) : io string :=
  match size_bytes with
  | None => raise TypeError
  | Some b => ret (size_ladder ["B"; "KB"; "MB"; "GB"] b)
  end.

Record world : Type := mkWorld {
  inspect_multi : inspection;
  inspect_single : inspection;
  now : string;
  write : write_outcome
}.

Definition or_unknown (x : option string) : string :=
  match x with
  | Some s => if String.eqb s "" then "unknown" else s
  | None => "unknown"
  end.

(** The part of [track_images] before the history is touched: the entry
    to record, or [None] where the method returns [False]. *)
Definition new_entry (multi_stage_image single_stage_image : string)
    (commit_sha : option string) (w : world) : io (option entry) :=
  multi_size <- get_image_size multi_stage_image (inspect_multi w) ;;
  single_size <- get_image_size single_stage_image (inspect_single w) ;;
  match multi_size, single_size with
  | Some m, Some s =>
      let size_reduction := (s - m)%Z in
      ratio <- div (inject_Z size_reduction) (inject_Z s) ;;
      let reduction_percent := ratio * 100 in
      multi_human <- get_human_readable_size (Some (inject_Z m)) ;;
      single_human <- get_human_readable_size (Some (inject_Z s)) ;;
      reduction_human <- get_human_readable_size (Some (inject_Z size_reduction)) ;;
      ret (Some {|
        timestamp := now w;
        commit := or_unknown commit_sha;
        multi_stage := mkImage multi_stage_image m multi_human;
        single_stage := mkImage single_stage_image s single_human;
        reduction := mkReduction size_reduction reduction_human
                                 (round_n 2 reduction_percent)
      |})
  | _, _ =>
      print "Error: Could not retrieve image sizes" ;;; ret None
  end.

Definition track_images (multi_stage_image single_stage_image : string)
    (commit_sha : option string) (w : world) (t : tracker)
  : tracker * io (option entry) :=
  match new_entry multi_stage_image single_stage_image commit_sha w with
  | (out, inl (Some e)) =>
      let appended := mkState (history t ++ [e])%list (file t) in
      match _save_history (write w) appended with
      | (t', inl _) => (t', (out, inl (Some e)))
      | (t', inr x) => (t', (out, inr x))
      end
  | r => (t, r)
  end.

Definition print_current_comparison (e : entry) : io unit :=
  print (nl ++ str_mul "=" 60) ;;;
  print "Docker Image Size Comparison" ;;;
  print (str_mul "=" 60) ;;;
  print ("Timestamp: " ++ timestamp e) ;;;
  print ("Commit: " ++ commit e) ;;;
  print "" ;;;
  print ("Multi-Stage Image:  " ++ rjust 15 (size_human (multi_stage e))) ;;;
  print ("Single-Stage Image: " ++ rjust 15 (size_human (single_stage e))) ;;;
  print (str_mul "-" 60) ;;;
  print ("Size Reduction:     " ++ rjust 15 (human (reduction e))
         ++ " (" ++ str_float (percent (reduction e)) ++ "%)") ;;;
  print (str_mul "=" 60 ++ nl).

(** The [for] loop that prints one line per element. *)
Fixpoint print_all (lines : list string) : io unit :=
  match lines with
  | [] => ret tt
  | l :: rest => print l ;;; print_all rest
  end.

Definition non_empty {A : Type} (l : list A) : bool :=
  match l with
  | [] => false
  | _ :: _ => true
  end.

Definition trend_header : string :=
  ljust 20 "Date" ++ " " ++ ljust 12 "Commit" ++ " "
    ++ ljust 15 "Multi-Stage" ++ " " ++ ljust 15 "Single-Stage" ++ " "
    ++ ljust 10 "Reduction".

Definition trend_row (e : entry) : string :=
  let date := str_take 19 (timestamp e) in
  let commit := str_take 10 (commit e) in
  let multi := size_human (multi_stage e) in
  let single := size_human (single_stage e) in
  let reduction := str_float (percent (reduction e)) ++ "%" in
  ljust 20 date ++ " " ++ ljust 12 commit ++ " " ++ ljust 15 multi ++ " "
    ++ ljust 15 single ++ " " ++ ljust 10 reduction.

(** The block under [# Calculate averages]. *)
Definition averages_section (entries : list entry) : io unit :=
  let total_multi :=
    fold_left Z.add (map (fun e => size_bytes (multi_stage e)) entries) 0%Z in
  let total_single :=
    fold_left Z.add (map (fun e => size_bytes (single_stage e)) entries) 0%Z in
  let count := len entries in
  avg_multi <- div (inject_Z total_multi) count ;;
  avg_single <- div (inject_Z total_single) count ;;
  ratio <- div (avg_single - avg_multi) avg_single ;;
  let avg_reduction := ratio * 100 in
  multi_human <- get_human_readable_size (Some avg_multi) ;;
  print ("Average Multi-Stage Size:  " ++ multi_human) ;;;
  single_human <- get_human_readable_size (Some avg_single) ;;
  print ("Average Single-Stage Size: " ++ single_human) ;;;
  print ("Average Reduction:         " ++ format_f 2 avg_reduction ++ "%") ;;;
  print "".

(** The block under [# Show last 5 entries]. *)
Definition recent_section (entries : list entry) : io unit :=
  print "Recent History (Last 5 Builds):" ;;;
  print (str_mul "-" 80) ;;;
  print trend_header ;;;
  print (str_mul "-" 80) ;;;
  print_all (map trend_row (last_n 5 entries)) ;;;
  print (str_mul "=" 80 ++ nl).

Definition generate_trend_report (t : tracker) : io unit :=
  let entries := history t in
  if non_empty entries then
    print (nl ++ str_mul "=" 80) ;;;
    print "Size Trend Report" ;;;
    print (str_mul "=" 80) ;;;
    print ("Total Builds Tracked: " ++ str_int (Z.of_nat (List.length entries))) ;;;
    print "" ;;;
    averages_section entries ;;;
    recent_section entries
  else
    print "No historical data available".

(** *** CSV export *)

Definition csv_header : string :=
  "timestamp,commit,multi_stage_bytes,multi_stage_human,single_stage_bytes,single_stage_human,reduction_bytes,reduction_percent"
    ++ nl.

Definition csv_cells (e : entry) : list string :=
  [ timestamp e; commit e;
    str_int (size_bytes (multi_stage e)); size_human (multi_stage e);
    str_int (size_bytes (single_stage e)); size_human (single_stage e);
    str_int (bytes (reduction e)); str_float (percent (reduction e)) ].

Fixpoint csv_writes (cells : list string) : list string :=
  match cells with
  | [] => []
  | [c] => [c ++ nl]
  | c :: rest => (c ++ ",") :: csv_writes rest
  end.

Definition export_csv (filename : string) (t : tracker)
  : option string * io unit :=
  if non_empty (history t) then
    (Some (String.concat ""
             (csv_header :: flat_map (fun e => csv_writes (csv_cells e)) (history t))),
     print ("Data exported to " ++ filename))
  else
    (None, print "No data to export").

(** *** The command line *)

Record args : Type := mkArgs {
  arg_multi_stage : string;
  arg_single_stage : string;
  arg_commit : option string;
  arg_report : bool;
  arg_export_csv : bool;
  arg_data_file : string
}.

Inductive ending : Type :=
| Returned
| Exited (status : Z)
| Raised (e : exn).

Record run_of_main : Type := mkRun {
  main_printed : list string;
  main_file : option (file_content entry);
  main_csv : option string;
  main_ending : ending
}.

Definition ending_of (r : unit + exn) : ending :=
  match r with
  | inl _ => Returned
  | inr e => Raised e
  end.

Definition main (a : args) (w : world) (f : option (file_content entry))
  : run_of_main :=
  match init f with
  | inr e => mkRun [] f None (Raised e)
  | inl tracker =>
      if arg_report a then
        let r := generate_trend_report tracker in
        mkRun (printed r) f None (ending_of (outcome r))
      else if arg_export_csv a then
        let r := export_csv "size-history.csv" tracker in
        mkRun (printed (snd r)) f (fst r) (ending_of (outcome (snd r)))
      else
        let tracking := "Tracking Docker image sizes..." in
        match track_images (arg_multi_stage a) (arg_single_stage a)
                (arg_commit a) w tracker with
        | (t', (out, inr e)) =>
            mkRun (tracking :: out)%list (file t') None (Raised e)
        | (t', (out, inl (Some e))) =>
            mkRun (tracking :: out
                     ++ printed (print_current_comparison e)
                     ++ [("Data saved to " ++ arg_data_file a)%string])%list
                  (file t') None Returned
        | (t', (out, inl None)) =>
            mkRun (tracking :: out ++ ["Failed to track image sizes"])%list
                  (file t') None (Exited 1)
        end
  end.

End SizeTracker.

(** * Vocabulary of the properties

    Figures, predicates and sample data the statements below are written
    with. *)

Section Vocabulary.
Import Py Store BuildTimeTracker.
Local Open Scope list_scope.

(** ** Formatters *)

(** The whole seconds of [d] split into [m] minutes and [s] seconds. *)
Definition minutes_seconds_of (d : Q) (m s : Z) : Prop :=
  (0 <= m)%Z /\ (0 <= s < 60)%Z /\
  inject_Z (60 * m + s) <= d /\ d < inject_Z (60 * m + s) + 1.

(** The whole minutes of [d] split into [h] hours and [m] minutes. *)
Definition hours_minutes_of (d : Q) (h m : Z) : Prop :=
  (0 <= h)%Z /\ (0 <= m < 60)%Z /\
  inject_Z (3600 * h + 60 * m) <= d /\ d < inject_Z (3600 * h + 60 * m) + 60.




(** ** Calls of [track_build] *)

(** The arguments of one call of [track_build] and the world it meets. *)
Record call : Type := mkCall {
  call_dockerfile : string;
  call_context : string;
  call_image : string;
  call_type : string;
  call_commit : option string;
  call_no_cache : bool;
  call_world : world
}.

(** [tracker.track_build(...)] with the arguments of [c]. *)
Definition track (c : call) (t : tracker) : tracker * io (option build) :=
  track_build (call_dockerfile c) (call_context c) (call_image c)
    (call_type c) (call_commit c) (call_no_cache c) (call_world c) t.

(** The tracker after a series of calls, whatever each returned or raised
    (a caller that catches the exception keeps the object). *)
Definition after_calls (t : tracker) (cs : list call) : tracker :=
  fold_left (fun t c => fst (track c t)) cs t.

(** The build of the call succeeded, so an entry is appended. *)
Definition built (c : call) : bool :=
  match run (call_world c) with
  | Completed _ => true
  | CalledProcessError _ => false
  end.

(** The call appended an entry and the rewrite of the file succeeded. *)
Definition appended_ok (c : call) : bool :=
  match run (call_world c), write (call_world c) with
  | Completed _, WriteOk => true
  | _, _ => false
  end.

(** A call whose build fails. *)
Definition failing_call : call :=
  mkCall "Dockerfile" "." "app:latest" "multi-stage" None false
    (mkWorld (CalledProcessError "no such file") 3 InspectionFailed
             "2024-01-01T00:00:00" WriteOk).

(** How many of the calls satisfy [p]. *)
Definition count_calls (p : call -> bool) (cs : list call) : nat :=
  List.length (filter p cs).

(** A call whose build succeeds, with two steps of which one is cached,
    and whose write of the backing file ends as [w] says. *)
Definition world_of (w : write_outcome) : world :=
  mkWorld (Completed "Step 1/2 : FROM python Step 2/2 : COPY CACHED")
          (1234 # 100) (Inspected 1048576) "2024-01-01T00:00:00.000000" w.

Definition call_of (w : write_outcome) : call :=
  mkCall "app/Dockerfile.multi-stage" "app" "multi-stage-app:latest"
         "multi-stage" (Some "abc1234") false (world_of w).

(** ** Means and comparisons *)

(** The mean of a group's figures, and the relative improvement of a group
    with mean [mean_a] over a group with mean [mean_b], as the
    specification words them. *)
Definition mean (l : list Q) : Q := sum l / len l.

Definition improvement_percent (mean_a mean_b : Q) : Q :=
  (mean_b - mean_a) / mean_b * 100.

(** The durations of a group, and the data model's assumption on them. *)
Definition durations (group : list build) : list Q :=
  map duration_seconds group.

Definition durations_non_negative (t : tracker) : Prop :=
  forall b, In b (history t) -> 0 <= duration_seconds b.


(** The lines around the rows of the table of recent builds, and the
    first lines of the report. *)
Definition recent_frame_top : list string :=
  [ "Recent Builds (Last 5):"; str_mul "-" 80; recent_header; str_mul "-" 80 ].

Definition frame_bottom : list string := [ (str_mul "=" 80 ++ nl)%string ].

Definition report_banner (t : tracker) : list string :=
  [ (nl ++ str_mul "=" 80)%string;
    "Build Performance Report";
    str_mul "=" 80;
    ("Total Builds Tracked: "
       ++ str_int (Z.of_nat (List.length (history t))))%string;
    "" ].

(** The size of a build that enters the mean image size: one that is
    recorded and is not zero. *)
Definition counted_size (b : build) : option Z :=
  match image_size_bytes b with
  | SizeInt z => if (z =? 0)%Z then None else Some z
  | SizeNone | SizeAbsent => None
  end.

Fixpoint counted_sizes (group : list build) : list Z :=
  match group with
  | [] => []
  | b :: rest =>
      match counted_size b with
      | Some z => z :: counted_sizes rest
      | None => counted_sizes rest
      end
  end.

(** Every entry has the key ["image_size_bytes"], as those made by
    [track_build] have. *)
Definition sizes_present (group : list build) : Prop :=
  forall b, In b group -> image_size_bytes b <> SizeAbsent.

(** The mean image size of a group, over the sizes that are counted. *)
Definition mean_of_sizes (group : list build) : Q :=
  mean (map inject_Z (counted_sizes group)).

(** The lines of the comparison view that state the two figures. *)
Definition improvement_line (improvement : Q) : string :=
  ("  Improvement:  " ++ format_f 1 improvement ++ "% faster")%string.

Definition reduction_line (reduction : Q) : string :=
  ("  Reduction:    " ++ format_f 1 reduction ++ "% smaller")%string.

(** Sample entries, as [track_build] makes them. *)
Definition sample (btype : string) (seconds : Q) (size : option Z) : build := {|
  timestamp := "2024-05-01T10:20:30.123456";
  commit := "0123456789abcdef";
  build_type := btype;
  image_name := "app:latest";
  dockerfile := "app/Dockerfile";
  no_cache := false;
  duration_seconds := seconds;
  duration_human := format_duration seconds;
  cache_hits := 3;
  total_steps := 4;
  cache_hit_rate := Float 75;
  image_size_bytes := size_of_inspection size;
  image_size_human := get_human_readable_size (option_map inject_Z size)
|}.

(** A tracker whose file holds its history. *)
Definition store_of (builds : list build) : tracker :=
  mkState builds (Some (Document builds)).


(** The failing input of C2: one build of each type, neither with a size. *)
Definition all_null : tracker :=
  store_of [sample "multi-stage" 40 None; sample "single-stage" 50 None].

(** The entry [b] with [s] under ["image_size_bytes"]. *)
Definition set_size (s : size_field) (b : build) : build := {|
  timestamp := timestamp b;
  commit := commit b;
  build_type := build_type b;
  image_name := image_name b;
  dockerfile := dockerfile b;
  no_cache := no_cache b;
  duration_seconds := duration_seconds b;
  duration_human := duration_human b;
  cache_hits := cache_hits b;
  total_steps := total_steps b;
  cache_hit_rate := cache_hit_rate b;
  image_size_bytes := s;
  image_size_human := image_size_human b
|}.

(** The entry with a size of zero replaced by a missing size. *)
Definition null_if_zero (b : build) : build :=
  match image_size_bytes b with
  | SizeInt z => if (z =? 0)%Z then set_size SizeNone b else b
  | SizeNone | SizeAbsent => b
  end.

(** ** Tables of recent records *)






(** ** CSV export *)

(** One line of the file: the values separated by commas. *)
Definition csv_line (b : build) : string :=
  (String.concat "," (csv_cells b) ++ nl)%string.

(** Writing chunk after chunk: [String.concat ""] of the chunks. *)
Fixpoint written (chunks : list string) : string :=
  match chunks with
  | [] => ""
  | c :: rest => (c ++ written rest)%string
  end.

(** The failing input of C3: a record whose size could not be inspected. *)
Definition null_size : tracker := store_of [sample "single-stage" 50 None].

(** ** Further vocabulary *)

(** How often the character [c] occurs in [s]. *)
Fixpoint count_char (c : ascii) (s : string) : nat :=
  match s with
  | EmptyString => O
  | String x rest => ((if Ascii.eqb c x then 1 else 0) + count_char c rest)%nat
  end.

Definition comma : ascii := ","%char.
Definition newline : ascii := "010"%char.

(** A text without comma and without newline: one CSV field. *)
Definition plain (s : string) : Prop :=
  count_char comma s = O /\ count_char newline s = O.

(** The texts of a build that the export writes as they are. *)
Definition plain_build (b : build) : Prop :=
  plain (timestamp b) /\ plain (commit b) /\ plain (build_type b) /\
  plain (image_name b).

(** The same for an entry of the size tracker. *)
Definition plain_entry (e : SizeTracker.entry) : Prop :=
  plain (SizeTracker.timestamp e) /\ plain (SizeTracker.commit e) /\
  plain (SizeTracker.size_human (SizeTracker.multi_stage e)) /\
  plain (SizeTracker.size_human (SizeTracker.single_stage e)).

(** One line of the size tracker's CSV file. *)
Definition size_csv_line (e : SizeTracker.entry) : string :=
  (String.concat "," (SizeTracker.csv_cells e) ++ nl)%string.

(** The call's subprocess output shows no step at all. *)
Definition no_steps (c : call) : Prop :=
  match run (call_world c) with
  | Completed output => str_count output "Step " = 0%Z
  | CalledProcessError _ => True
  end.

(** The comparison view has all it divides by: both build types have
    records, the mean single-stage duration is not zero, both have a size
    that counts, and the mean single-stage size is not zero. *)
Definition comparable (t : tracker) : Prop :=
  let multi := of_type "multi-stage" (history t) in
  let single := of_type "single-stage" (history t) in
  multi <> [] /\ single <> [] /\
  ~ mean (durations single) == 0 /\
  counted_sizes multi <> [] /\ counted_sizes single <> [] /\
  ~ mean_of_sizes single == 0.

(** The sums of the sizes the trend report averages. *)
Definition total_multi (entries : list SizeTracker.entry) : Z :=
  fold_left Z.add
    (map (fun e => SizeTracker.size_bytes (SizeTracker.multi_stage e)) entries)
    0%Z.

Definition total_single (entries : list SizeTracker.entry) : Z :=
  fold_left Z.add
    (map (fun e => SizeTracker.size_bytes (SizeTracker.single_stage e)) entries)
    0%Z.


Definition size_args : SizeTracker.args :=
  SizeTracker.mkArgs "multi-stage-app:latest" "single-stage-app:latest" None
                     false false "size-history.json".

(** An inspection that gives no size. *)
Definition no_size (i : SizeTracker.inspection) : Prop :=
  match i with
  | SizeTracker.Inspected _ => False
  | _ => True
  end.

(** Worlds of the size tracker: one image is not found; the single-stage
    image has a size of zero; both images are found. *)
Definition nothing_found : SizeTracker.world :=
  SizeTracker.mkWorld SizeTracker.NotFound (SizeTracker.Inspected 100)
                      "2024-05-01T10:20:30" WriteOk.

Definition zero_single : SizeTracker.world :=
  SizeTracker.mkWorld (SizeTracker.Inspected 100) (SizeTracker.Inspected 0)
                      "2024-05-01T10:20:30" WriteOk.


(** An entry of the size tracker, as [track_images] makes them. *)
Definition size_sample : SizeTracker.entry :=
  SizeTracker.mkEntry "2024-05-01T10:20:30.123456" "0123456789abcdef"
    (SizeTracker.mkImage "multi-stage-app:latest" 1048576 "1.00 MB")
    (SizeTracker.mkImage "single-stage-app:latest" 4194304 "4.00 MB")
    (SizeTracker.mkReduction 3145728 "3.00 MB" 75).


(** One of the flags [--report], [--compare], [--export-csv] is set. *)
Definition reporting (a : args) : bool :=
  arg_report a || arg_compare a || arg_export_csv a.

(** The build type is one of the two the reports know. *)
Definition known_type (b : build) : bool :=
  String.eqb (build_type b) "multi-stage"
  || String.eqb (build_type b) "single-stage".

End Vocabulary.

(** * Properties *)

(** ** Floats: comparisons, floors *)

Section FloatFacts.
Import Py.

Lemma Qltb_lt (a b : Q) : Qltb a b = true <-> a < b.
Proof.
  unfold Qltb. rewrite negb_true_iff. split; intro H.
  - apply Qnot_le_lt. intro L. apply Qle_bool_iff in L. congruence.
  - destruct (Qle_bool b a) eqn:E; [|reflexivity].
    apply Qle_bool_iff in E. lra.
Qed.

Lemma Qltb_ge (a b : Q) : Qltb a b = false <-> b <= a.
Proof.
  unfold Qltb. rewrite negb_false_iff. apply Qle_bool_iff.
Qed.

Lemma Qeqb0_true (a : Q) : Qeqb0 a = true <-> a == 0.
Proof. apply Qeq_bool_iff. Qed.

Lemma Qeqb0_false (a : Q) : Qeqb0 a = false <-> ~ a == 0.
Proof.
  unfold Qeqb0. split; intro H.
  - intro E. apply Qeq_bool_iff in E. congruence.
  - destruct (Qeq_bool a 0) eqn:E; [|reflexivity].
    apply Qeq_bool_iff in E. contradiction.
Qed.

Lemma floor_bounds (x : Q) :
  inject_Z (Qfloor x) <= x /\ x < inject_Z (Qfloor x) + 1.
Proof.
  split; [apply Qfloor_le|].
  pose proof (Qlt_floor x) as H. rewrite inject_Z_plus in H. exact H.
Qed.

(** [x // y] and [x % y]: quotient and remainder of the division of [x]
    by a positive [y]. *)
Lemma floordiv_modulo (x y : Q) :
  0 < y ->
  x == y * floordiv x y + modulo x y /\ 0 <= modulo x y /\ modulo x y < y.
Proof.
  intro Hy. unfold floordiv, modulo.
  destruct (floor_bounds (x / y)) as [L U].
  set (k := inject_Z (Qfloor (x / y))) in *.
  assert (E : x == y * (x / y)) by (field; lra).
  split; [lra|]. split.
  - assert (y * k <= y * (x / y)) by (apply Qmult_le_l; assumption). lra.
  - assert (y * (x / y) < y * (k + 1)) by (apply Qmult_lt_l; assumption). lra.
Qed.

Lemma int_of_float_nonneg (x : Q) : 0 <= x -> int_of_float x = Qfloor x.
Proof.
  intro H. unfold int_of_float.
  destruct (Qltb x 0) eqn:E; [|reflexivity].
  apply Qltb_lt in E. lra.
Qed.

Lemma floor_nonneg (x : Q) : 0 <= x -> (0 <= Qfloor x)%Z.
Proof. intro H. apply (Qfloor_resp_le 0 x) in H. exact H. Qed.

Lemma floor_below (x : Q) (n : Z) : x < inject_Z n -> (Qfloor x < n)%Z.
Proof.
  intro H. rewrite Zlt_Qlt. pose proof (Qfloor_le x). lra.
Qed.

Lemma floor_at_least (x : Q) (n : Z) : inject_Z n <= x -> (n <= Qfloor x)%Z.
Proof.
  intro H. apply Qfloor_resp_le in H. rewrite Qfloor_Z in H. exact H.
Qed.

End FloatFacts.

(** ** The duration formatter *)

Section FormatDuration.
Import Py BuildTimeTracker.

Lemma format_duration_minutes (d : Q) :
  60 <= d -> d < 3600 ->
  exists m s, minutes_seconds_of d m s /\ (1 <= m < 60)%Z /\
    format_duration d = str_int m ++ "m " ++ str_int s ++ "s".
Proof.
  intros L U. unfold format_duration.
  assert (E1 : Qltb d 60 = false) by (apply Qltb_ge; exact L).
  assert (E2 : Qltb d 3600 = true) by (apply Qltb_lt; exact U).
  rewrite E1, E2.
  destruct (floordiv_modulo d 60) as (E & R0 & R1); [lra|].
  pose proof (floor_bounds (modulo d 60)) as [F0 F1].
  assert (K1 : (1 <= Qfloor (d / 60))%Z).
  { apply floor_at_least. unfold inject_Z. apply Qle_shift_div_l; lra. }
  assert (K2 : (Qfloor (d / 60) < 60)%Z).
  { apply floor_below. unfold inject_Z. apply Qlt_shift_div_r; lra. }
  assert (M : int_of_float (floordiv d 60) = Qfloor (d / 60)).
  { unfold floordiv. rewrite int_of_float_nonneg, Qfloor_Z; [reflexivity|].
    change 0 with (inject_Z 0). rewrite <- Zle_Qle. lia. }
  rewrite M, (int_of_float_nonneg _ R0).
  exists (Qfloor (d / 60)), (Qfloor (modulo d 60)).
  split; [|split; [lia|reflexivity]].
  unfold minutes_seconds_of. unfold floordiv in E.
  rewrite inject_Z_plus, inject_Z_mult.
  change (inject_Z 60) with 60.
  repeat split; try lra; try lia.
  - apply floor_nonneg; exact R0.
  - apply floor_below; exact R1.
Qed.

Lemma format_duration_hours (d : Q) :
  3600 <= d ->
  exists h m, hours_minutes_of d h m /\ (1 <= h)%Z /\
    format_duration d = str_int h ++ "h " ++ str_int m ++ "m".
Proof.
  intros L. unfold format_duration.
  assert (E1 : Qltb d 60 = false) by (apply Qltb_ge; lra).
  assert (E2 : Qltb d 3600 = false) by (apply Qltb_ge; exact L).
  rewrite E1, E2.
  destruct (floordiv_modulo d 3600) as (E & R0 & R1); [lra|].
  set (r := modulo d 3600) in *.
  destruct (floordiv_modulo r 60) as (E' & R0' & R1'); [lra|].
  assert (K1 : (1 <= Qfloor (d / 3600))%Z).
  { apply floor_at_least. unfold inject_Z. apply Qle_shift_div_l; lra. }
  assert (Q0 : (0 <= Qfloor (r / 60))%Z).
  { apply floor_nonneg. apply Qle_shift_div_l; lra. }
  assert (Q1 : (Qfloor (r / 60) < 60)%Z).
  { apply floor_below. unfold inject_Z. apply Qlt_shift_div_r; lra. }
  assert (H : int_of_float (floordiv d 3600) = Qfloor (d / 3600)).
  { unfold floordiv. rewrite int_of_float_nonneg, Qfloor_Z; [reflexivity|].
    change 0 with (inject_Z 0). rewrite <- Zle_Qle. lia. }
  assert (M : int_of_float (floordiv r 60) = Qfloor (r / 60)).
  { unfold floordiv. rewrite int_of_float_nonneg, Qfloor_Z; [reflexivity|].
    change 0 with (inject_Z 0). rewrite <- Zle_Qle. lia. }
  rewrite H, M.
  exists (Qfloor (d / 3600)), (Qfloor (r / 60)).
  split; [|split; [lia|reflexivity]].
  unfold hours_minutes_of. unfold floordiv in E, E'.
  rewrite inject_Z_plus, !inject_Z_mult.
  change (inject_Z 60) with 60. change (inject_Z 3600) with 3600.
  repeat split; try lra; try lia.
Qed.

(** C6.  For every duration [d >= 0], [format_duration d] is the [.2f]
    rendering of [d] followed by ["s"] when [d < 60]; ["{m}m {s}s"] when
    [60 <= d < 3600], where [m] and [s] are the whole seconds of [d]
    (truncated, not rounded) split into minutes and seconds; and
    ["{h}h {m}m"] otherwise, where [h] and [m] are the whole minutes of
    [d] split into hours and minutes.  In particular 45 gives ["45.00s"],
    125 gives ["2m 5s"] and 3725 gives ["1h 2m"]. *)
Theorem format_duration_spec (d : Q) (Hd : 0 <= d) :
  (d < 60 -> format_duration d = format_f 2 d ++ "s") /\
  (60 <= d -> d < 3600 ->
     exists m s, minutes_seconds_of d m s /\
       format_duration d = str_int m ++ "m " ++ str_int s ++ "s") /\
  (3600 <= d ->
     exists h m, hours_minutes_of d h m /\
       format_duration d = str_int h ++ "h " ++ str_int m ++ "m") /\
  format_duration 45 = "45.00s" /\
  format_duration 125 = "2m 5s" /\
  format_duration 3725 = "1h 2m".
Proof.
  split; [|split; [|split]].
  - intro U. unfold format_duration.
    assert (E : Qltb d 60 = true) by (apply Qltb_lt; exact U).
    rewrite E. reflexivity.
  - intros L U. destruct (format_duration_minutes d L U) as (m & s & P & _ & E).
    exists m, s. split; assumption.
  - intros L. destruct (format_duration_hours d L) as (h & m & P & _ & E).
    exists h, m. split; assumption.
  - repeat split; vm_compute; reflexivity.
Qed.

Lemma format_duration_spec_witness :
  0 <= 125 /\ exists m s, minutes_seconds_of 125 m s /\
    format_duration 125 = str_int m ++ "m " ++ str_int s ++ "s".
Proof.
  assert (H : 0 <= 125) by (unfold Qle; simpl; lia).
  split; [exact H|].
  destruct (format_duration_spec 125 H) as (_ & M & _).
  apply M; unfold Qle, Qlt; simpl; lia.
Defined.

End FormatDuration.

(** ** The size formatter *)

Section HumanSize.
Import Py.








Lemma size_ladder_same (units : list string) (b : Q) :
  SizeTracker.size_ladder units b = BuildTimeTracker.size_ladder units b.
Proof.
  revert b. induction units as [|u rest IH]; intro b; simpl.
  - reflexivity.
  - rewrite IH. reflexivity.
Qed.






End HumanSize.

(** ** The history store *)

Section HistoryStore.
Import Py Store BuildTimeTracker.
Local Open Scope list_scope.

Lemma build_image_completed d c i n output el :
  exists out hits steps rate,
    build_image d c i n (Completed output) el
    = (out, inl (BuildSucceeded el hits steps rate output)).
Proof. unfold build_image. cbn. repeat eexists. Qed.

Lemma build_image_failed d c i n err el :
  exists out,
    build_image d c i n (CalledProcessError err) el
    = (out, inl (BuildFailed el err)) /\
    In ("Error: " ++ err)%string out.
Proof.
  unfold build_image. cbn. eexists. split; [reflexivity|].
  cbn. do 6 right. left. reflexivity.
Qed.

(** C8.  For every build outcome with [success = False], [track_build]
    returns [None] and leaves the tracker as it was, the in-memory history
    and the backing file alike; the outcome carries the subprocess's error
    text unchanged and that text is printed on the line ["Error: ..."]. *)
Theorem failed_build_not_recorded (c : call) (t : tracker) (r : build_result)
    (Hr : outcome (build_image (call_dockerfile c) (call_context c)
                     (call_image c) (call_no_cache c)
                     (run (call_world c)) (elapsed (call_world c))) = inl r)
    (Hfail : success r = false) :
  exists message,
    run (call_world c) = CalledProcessError message /\
    r = BuildFailed (elapsed (call_world c)) message /\
    fst (track c t) = t /\
    outcome (snd (track c t)) = inl None /\
    In ("Error: " ++ message)%string (printed (snd (track c t))).
Proof.
  unfold track, track_build.
  destruct (run (call_world c)) as [output|err] eqn:R.
  - destruct (build_image_completed (call_dockerfile c) (call_context c)
                (call_image c) (call_no_cache c) output
                (elapsed (call_world c))) as (out & h & s & ra & E).
    rewrite E in Hr. cbn in Hr. injection Hr as <-. discriminate.
  - destruct (build_image_failed (call_dockerfile c) (call_context c)
                (call_image c) (call_no_cache c) err
                (elapsed (call_world c))) as (out & E & I).
    rewrite E in *. cbn in Hr. injection Hr as <-.
    exists err. repeat split.
    cbn. apply in_or_app. left. exact I.
Qed.

Lemma failed_build_not_recorded_witness :
  fst (track failing_call (mkState [] None)) = mkState [] None /\
  In "Error: no such file"
     (printed (snd (track failing_call (mkState [] None)))).
Proof.
  destruct (failed_build_not_recorded failing_call (mkState [] None)
              (BuildFailed 3 "no such file") eq_refl eq_refl)
    as (m & R & E & F & _ & I).
  injection E as <-. split; assumption.
Defined.

(** What a call whose build succeeded does, by the fate of the write. *)
Lemma track_built (c : call) (t : tracker) :
  built c = true ->
  exists entry out,
    track c t =
    match write (call_world c) with
    | WriteOk =>
        (mkState (history t ++ [entry]) (Some (Document (history t ++ [entry]))),
         (out, inl (Some entry)))
    | OpenFails =>
        (mkState (history t ++ [entry]) (file t), (out, inr OSError))
    | WriteFails =>
        (mkState (history t ++ [entry]) (Some Unparsable), (out, inr OSError))
    end.
Proof.
  unfold built, track, track_build. intro Hb.
  destruct (run (call_world c)) as [output|err]; [|discriminate].
  destruct (build_image_completed (call_dockerfile c) (call_context c)
              (call_image c) (call_no_cache c) output
              (elapsed (call_world c))) as (out & h & s & ra & E).
  rewrite E. eexists. exists out.
  destruct (write (call_world c)); reflexivity.
Qed.

Lemma track_not_built (c : call) (t : tracker) :
  built c = false ->
  fst (track c t) = t /\ outcome (snd (track c t)) = inl None.
Proof.
  unfold built, track, track_build. intro Hb.
  destruct (run (call_world c)) as [output|err]; [discriminate|].
  destruct (build_image_failed (call_dockerfile c) (call_context c)
              (call_image c) (call_no_cache c) err
              (elapsed (call_world c))) as (out & E & _).
  rewrite E. split; reflexivity.
Qed.

Lemma appended_ok_returns (c : call) (t : tracker) :
  appended_ok c = true <->
  exists e, outcome (snd (track c t)) = inl (Some e).
Proof.
  unfold appended_ok. split.
  - intro H. destruct (built c) eqn:B.
    + destruct (track_built c t B) as (e & out & E). rewrite E.
      destruct (run (call_world c)); [|discriminate].
      destruct (write (call_world c)); try discriminate.
      exists e. reflexivity.
    + unfold built in B. destruct (run (call_world c)); discriminate.
  - intros (e & H). destruct (built c) eqn:B.
    + destruct (track_built c t B) as (e' & out & E). rewrite E in H.
      unfold built in B. destruct (run (call_world c)); [|discriminate].
      destruct (write (call_world c)); [reflexivity|discriminate..].
    + destruct (track_not_built c t B) as (_ & N). rewrite N in H.
      discriminate.
Qed.

Lemma after_calls_app (t : tracker) (cs ds : list call) :
  after_calls t (cs ++ ds) = after_calls (after_calls t cs) ds.
Proof. unfold after_calls. apply fold_left_app. Qed.

(** The in-memory history grows with every call whose build succeeded,
    whatever became of the write. *)
Lemma history_after_calls (cs : list call) :
  forall t, List.length (history (after_calls t cs))
            = (List.length (history t) + count_calls built cs)%nat.
Proof.
  unfold count_calls.
  induction cs as [|c cs IH]; intro t; simpl.
  - lia.
  - change (fold_left _ cs ?x) with (after_calls x cs). rewrite IH.
    destruct (built c) eqn:B.
    + destruct (track_built c t B) as (e & out & E). rewrite E.
      destruct (write (call_world c)); simpl; rewrite length_app; simpl; lia.
    + destruct (track_not_built c t B) as (E & _). rewrite E. lia.
Qed.

(** C1 (as amended).  An append adds the entry to the in-memory history
    and then rewrites the backing file.  When the write succeeds the file
    holds the in-memory history, appended entry included.  When it fails
    the error reaches the caller and the in-memory history keeps the
    appended entry: nothing is rolled back; the file is untouched if it
    could not be opened.  So after any series of calls the in-memory count
    is the starting count plus the number of builds that succeeded, failed
    writes included, and a call that ends in a successful write leaves the
    on-disk count equal to that in-memory count. *)
Theorem append_keeps_entry (c : call) (t : tracker) (Hb : built c = true) :
  (exists entry,
      history (fst (track c t)) = history t ++ [entry] /\
      match write (call_world c) with
      | WriteOk =>
          outcome (snd (track c t)) = inl (Some entry) /\
          file (fst (track c t)) = Some (Document (history t ++ [entry]))
      | OpenFails =>
          raises (snd (track c t)) OSError /\
          file (fst (track c t)) = file t
      | WriteFails =>
          raises (snd (track c t)) OSError /\
          file (fst (track c t)) = Some Unparsable
      end) /\
  (forall cs,
      List.length (history (after_calls t cs))
      = (List.length (history t) + count_calls built cs)%nat) /\
  (forall cs,
      appended_ok c = true ->
      disk_count (file (after_calls t (cs ++ [c])))
      = Some (List.length (history t) + count_calls built (cs ++ [c]))%nat).
Proof.
  split; [|split].
  - destruct (track_built c t Hb) as (e & out & E). rewrite E.
    exists e. destruct (write (call_world c)); repeat split.
  - intro cs. apply history_after_calls.
  - intros cs Hok. rewrite <- history_after_calls.
    rewrite after_calls_app. simpl.
    set (u := after_calls t cs).
    destruct (track_built c u Hb) as (e & out & E). rewrite E.
    unfold appended_ok in Hok.
    destruct (run (call_world c)); [|discriminate].
    destruct (write (call_world c)); try discriminate.
    reflexivity.
Qed.

Lemma append_keeps_entry_witness :
  built (call_of OpenFails) = true /\
  exists entry,
    history (fst (track (call_of OpenFails) (mkState [] None))) = [entry] /\
    raises (snd (track (call_of OpenFails) (mkState [] None))) OSError.
Proof.
  assert (H : built (call_of OpenFails) = true) by reflexivity.
  split; [exact H|].
  destruct (append_keeps_entry (call_of OpenFails) (mkState [] None) H)
    as ((e & Hh & Hr & _) & _).
  exists e. split; assumption.
Defined.

(** C1, counterexample.  On an empty store, an append whose write fails
    leaves its entry in the in-memory history, and the successful append
    that follows writes both: two records on disk after one successful
    append. *)
Lemma append_is_not_rolled_back :
  let t0 := mkState [] None in
  let t1 := fst (track (call_of OpenFails) t0) in
  let t2 := fst (track (call_of WriteOk) t1) in
  raises (snd (track (call_of OpenFails) t0)) OSError /\
  history t1 <> history t0 /\
  disk_count (file t1) = Some 0%nat /\
  count_calls appended_ok [call_of OpenFails; call_of WriteOk] = 1%nat /\
  disk_count (file t2) = Some 2%nat.
Proof.
  cbv zeta. split; [reflexivity|]. split; [|repeat split].
  destruct (track_built (call_of OpenFails) (mkState [] None) eq_refl)
    as (e & out & E).
  rewrite E. discriminate.
Qed.

(** C7.  After a successful append, in either tracker, reading the
    backing file again gives exactly the in-memory history (the previous
    history followed by the new entry); a tracker created on that file
    starts in the very state the first one is in. *)
Theorem load_after_append :
  (forall (c : call) (t : tracker) (e : build),
      outcome (snd (track c t)) = inl (Some e) ->
      let t' := fst (track c t) in
      history t' = history t ++ [e] /\
      _load_history (file t') = inl (history t') /\
      init (file t') = inl t') /\
  (forall (m s : string) (commit_sha : option string)
          (w : SizeTracker.world) (t : SizeTracker.tracker)
          (e : SizeTracker.entry),
      outcome (snd (SizeTracker.track_images m s commit_sha w t))
      = inl (Some e) ->
      let t' := fst (SizeTracker.track_images m s commit_sha w t) in
      history t' = history t ++ [e] /\
      SizeTracker._load_history (file t') = inl (history t') /\
      SizeTracker.init (file t') = inl t').
Proof.
  split.
  - intros c t e H. cbv zeta.
    destruct (built c) eqn:B.
    + destruct (track_built c t B) as (e' & out & E). rewrite E in *.
      destruct (write (call_world c)); try discriminate.
      cbn in H. injection H as <-. repeat split.
    + destruct (track_not_built c t B) as (_ & N). rewrite N in H.
      discriminate.
  - intros m s commit_sha w t e H. cbv zeta.
    unfold SizeTracker.track_images in *.
    destruct (SizeTracker.new_entry m s commit_sha w) as [out [[e'|]|x]];
      try discriminate.
    destruct (SizeTracker.write w); try discriminate.
    cbn in H. injection H as <-. repeat split.
Qed.

Lemma load_after_append_witness :
  let t' := fst (track (call_of WriteOk) (mkState [] None)) in
  _load_history (file t') = inl (history t') /\ init (file t') = inl t'.
Proof.
  destruct load_after_append as (H & _).
  destruct (proj1 (appended_ok_returns (call_of WriteOk) (mkState [] None))
              eq_refl) as (e & R).
  destruct (H (call_of WriteOk) (mkState [] None) e R) as (_ & L & I).
  split; assumption.
Defined.

End HistoryStore.

(** ** Printing operations *)

Section IoFacts.
Import Py.
Local Open Scope list_scope.
Local Open Scope io_scope.

Lemma bind_ret {A B : Type} (a : A) (f : A -> io B) :
  Py.bind (ret a) f = f a.
Proof. unfold Py.bind, ret. destruct (f a). reflexivity. Qed.


Lemma outcome_bind {A B : Type} (m : io A) (f : A -> io B) (a : A) :
  outcome m = inl a -> outcome (Py.bind m f) = outcome (f a).
Proof.
  destruct m as [o r]. simpl. intros ->. simpl.
  destruct (f a). reflexivity.
Qed.

Lemma outcome_bind_raise {A B : Type} (m : io A) (f : A -> io B) (e : exn) :
  outcome m = inr e -> outcome (Py.bind m f) = inr e.
Proof. destruct m as [o r]. simpl. intros ->. reflexivity. Qed.



Lemma print_then {B : Type} (s : string) (k : io B) :
  (print s ;;; k) = (s :: printed k, outcome k).
Proof. unfold Py.bind, print. destruct k. reflexivity. Qed.

Lemma print_all_lines (print_all : list string -> io unit) (lines : list string) :
  (forall l rest, print_all (l :: rest) = (print l ;;; print_all rest)) ->
  print_all [] = ret tt ->
  print_all lines = (lines, inl tt).
Proof.
  intros Hc Hn. induction lines as [|l rest IH].
  - exact Hn.
  - rewrite Hc, print_then, IH. reflexivity.
Qed.

Lemma sum_from (l : list Q) (a : Q) : fold_left Qplus l a == a + sum l.
Proof.
  unfold sum. revert a. induction l as [|x l IH]; intro a; simpl.
  - lra.
  - rewrite (IH (a + x)), (IH (0 + x)). lra.
Qed.

Lemma sum_cons (x : Q) (l : list Q) : sum (x :: l) == x + sum l.
Proof. unfold sum at 1. simpl. rewrite sum_from. lra. Qed.

Lemma sum_nonneg (l : list Q) : (forall x, In x l -> 0 <= x) -> 0 <= sum l.
Proof.
  induction l as [|x l IH]; intro H.
  - unfold sum. simpl. lra.
  - rewrite sum_cons.
    assert (0 <= x) by (apply H; left; reflexivity).
    assert (0 <= sum l) by (apply IH; intros y Hy; apply H; right; exact Hy).
    lra.
Qed.

Lemma len_pos {A : Type} (l : list A) : l <> [] -> 0 < len l.
Proof.
  intro H. destruct l as [|x l]; [contradiction|].
  unfold len. change 0 with (inject_Z 0). rewrite <- Zlt_Qlt. simpl. lia.
Qed.

Lemma non_empty_true {A : Type} (l : list A) :
  l <> [] -> BuildTimeTracker.non_empty l = true.
Proof. destruct l; [contradiction|reflexivity]. Qed.

(** [a / b] returns the quotient unless [b] is zero. *)
Lemma div_returns (a b : Q) : ~ b == 0 -> div a b = ret (a / b).
Proof. intro H. unfold div. apply Qeqb0_false in H. rewrite H. reflexivity. Qed.

Lemma div_raises (a b : Q) : b == 0 -> div a b = raise ZeroDivisionError.
Proof. intro H. unfold div. apply Qeqb0_true in H. rewrite H. reflexivity. Qed.

End IoFacts.

(** ** Means and the comparison of the two build types *)

Section Comparison.
Import Py Store BuildTimeTracker.
Local Open Scope list_scope.
Local Open Scope io_scope.

Lemma mean_duration_returns (group : list build) :
  group <> [] -> mean_duration group = ret (mean (durations group)).
Proof.
  intro H. unfold mean_duration. rewrite div_returns.
  - unfold mean, durations, len. rewrite length_map. reflexivity.
  - pose proof (len_pos group H). lra.
Qed.

Lemma mean_cache_rate_returns (group : list build) :
  group <> [] -> exists r, mean_cache_rate group = ret r.
Proof.
  intro H. unfold mean_cache_rate. rewrite div_returns; [eexists; reflexivity|].
  pose proof (len_pos group H). lra.
Qed.

Lemma mean_nonneg (l : list Q) : (forall x, In x l -> 0 <= x) -> 0 <= mean l.
Proof.
  intro H. unfold mean, Qdiv. apply Qmult_le_0_compat.
  - apply sum_nonneg; exact H.
  - apply Qinv_le_0_compat. unfold len.
    change 0 with (inject_Z 0). rewrite <- Zle_Qle. lia.
Qed.

Lemma of_type_incl (ty : string) (builds : list build) (b : build) :
  In b (of_type ty builds) -> In b builds.
Proof. unfold of_type. intro H. apply filter_In in H. tauto. Qed.

Lemma group_mean_nonneg (t : tracker) (ty : string) :
  durations_non_negative t ->
  0 <= mean (durations (of_type ty (history t))).
Proof.
  intro H. apply mean_nonneg. intros x Hx. unfold durations in Hx.
  apply in_map_iff in Hx. destruct Hx as (b & <- & Hb).
  apply H. eapply of_type_incl; exact Hb.
Qed.

(** With means that are not negative, the improvement is positive exactly
    when the baseline mean is the larger one. *)
Lemma improvement_positive (a b : Q) :
  0 <= a -> 0 <= b -> (0 < improvement_percent a b <-> a < b).
Proof.
  intros Ha Hb. unfold improvement_percent. split; intro H.
  - destruct (Qeq_dec b 0) as [Z|NZ].
    + exfalso. unfold Qdiv in H. rewrite Z in H.
      assert (E : (0 - a) * / 0 * 100 == 0) by (unfold Qinv; simpl; ring).
      lra.
    + assert (Pb : 0 < b) by lra.
      assert (P : 0 < (b - a) / b) by lra.
      assert (E : b - a == (b - a) / b * b) by (field; exact NZ).
      assert (0 < (b - a) / b * b) by (apply Qmult_lt_0_compat; assumption).
      lra.
  - assert (Pb : 0 < b) by lra.
    assert (0 < (b - a) / b).
    { apply Qlt_shift_div_l; lra. }
    lra.
Qed.

Lemma print_all_printed (lines : list string) :
  print_all lines = (lines, inl tt).
Proof. apply print_all_lines; reflexivity. Qed.

Lemma comparison_section_cases (multi single : list build) :
  multi <> [] -> single <> [] ->
  0 <= mean (durations multi) -> 0 <= mean (durations single) ->
  let a := mean (durations multi) in
  let b := mean (durations single) in
  (0 < improvement_percent a b ->
     comparison_section multi single
     = (comparison_lines a b (improvement_percent a b), inl tt)) /\
  (~ 0 < improvement_percent a b ->
     comparison_section multi single = ([], inl tt)).
Proof.
  intros Hm Hs Ha Hb. cbv zeta.
  unfold comparison_section.
  rewrite (non_empty_true _ Hm), (non_empty_true _ Hs). simpl andb. cbv iota.
  rewrite (mean_duration_returns _ Hm), bind_ret.
  rewrite (mean_duration_returns _ Hs), bind_ret.
  split; intro H.
  - apply (proj1 (improvement_positive _ _ Ha Hb)) in H.
    assert (E : Qltb (mean (durations multi)) (mean (durations single)) = true)
      by (apply Qltb_lt; exact H).
    rewrite E. rewrite div_returns by lra. rewrite bind_ret.
    apply print_all_printed.
  - assert (E : Qltb (mean (durations multi)) (mean (durations single)) = false).
    { destruct (Qltb _ _) eqn:E; [|reflexivity].
      apply Qltb_lt in E. apply (proj2 (improvement_positive _ _ Ha Hb)) in E.
      contradiction. }
    rewrite E. reflexivity.
Qed.

Lemma returns_unit_eta (m : io unit) :
  outcome m = inl tt -> m = (printed m, inl tt).
Proof. destruct m as [o r]. simpl. intros ->. reflexivity. Qed.

(** An optional line of the report with the mean duration of a subset. *)
Lemma optional_mean_line (group : list build) (label : string) :
  exists lines,
    (if non_empty group
     then avg <- mean_duration group ;;
          print (label ++ format_duration avg)%string
     else ret tt) = (lines, inl tt).
Proof.
  destruct group as [|b group].
  - exists []. reflexivity.
  - simpl non_empty. cbv iota.
    rewrite mean_duration_returns by discriminate. rewrite bind_ret.
    eexists. reflexivity.
Qed.

Lemma non_empty_neq {A : Type} (l : list A) : non_empty l = true -> l <> [].
Proof. destruct l; [discriminate|]. intros _. discriminate. Qed.

Lemma multi_stage_section_returns (group : list build) :
  outcome (multi_stage_section group) = inl tt.
Proof.
  unfold multi_stage_section.
  destruct (non_empty group) eqn:E; [|reflexivity].
  apply non_empty_neq in E.
  rewrite (mean_duration_returns _ E).
  destruct (mean_cache_rate_returns group E) as (r & ->).
  destruct (optional_mean_line (filter (fun b => negb (no_cache b)) group)
              "  With cache:             ") as (l1 & ->).
  destruct (optional_mean_line (filter no_cache group)
              "  Without cache:          ") as (l2 & ->).
  rewrite !print_then, !bind_ret, !print_then.
  reflexivity.
Qed.

Lemma single_stage_section_returns (group : list build) :
  outcome (single_stage_section group) = inl tt.
Proof.
  unfold single_stage_section.
  destruct (non_empty group) eqn:E; [|reflexivity].
  apply non_empty_neq in E.
  rewrite (mean_duration_returns _ E).
  rewrite !print_then, !bind_ret, !print_then. reflexivity.
Qed.

Lemma comparison_section_returns (multi single : list build) :
  0 <= mean (durations multi) -> 0 <= mean (durations single) ->
  outcome (comparison_section multi single) = inl tt.
Proof.
  intros Ha Hb.
  destruct multi as [|m multi]; [reflexivity|].
  destruct single as [|s single]; [reflexivity|].
  destruct (comparison_section_cases (m :: multi) (s :: single))
    as (P & N); try discriminate; try assumption.
  destruct (Qlt_le_dec 0 (improvement_percent (mean (durations (m :: multi)))
                                             (mean (durations (s :: single)))))
    as [L|G].
  - rewrite (P L). reflexivity.
  - rewrite N; [reflexivity|]. intro L. lra.
Qed.

Lemma recent_section_printed (builds : list build) :
  recent_section builds
  = (recent_frame_top ++ map recent_row (last_n 5 builds) ++ frame_bottom,
     inl tt).
Proof.
  unfold recent_section. rewrite print_all_printed. reflexivity.
Qed.

(** With durations that are not negative, the performance report never
    raises, and it prints its banner and its four sections in order. *)
Lemma report_parts (t : tracker) :
  durations_non_negative t ->
  history t <> [] ->
  let multi := of_type "multi-stage" (history t) in
  let single := of_type "single-stage" (history t) in
  generate_performance_report t
  = (report_banner t
       ++ printed (multi_stage_section multi)
       ++ printed (single_stage_section single)
       ++ printed (comparison_section multi single)
       ++ printed (recent_section (history t)),
     inl tt).
Proof.
  intros Hd Hne. cbv zeta. unfold generate_performance_report.
  rewrite (non_empty_true _ Hne).
  rewrite (returns_unit_eta _ (multi_stage_section_returns _)).
  rewrite (returns_unit_eta _ (single_stage_section_returns _)).
  rewrite (returns_unit_eta _ (comparison_section_returns _ _
             (group_mean_nonneg t "multi-stage" Hd)
             (group_mean_nonneg t "single-stage" Hd))).
  rewrite recent_section_printed.
  reflexivity.
Qed.

Lemma report_empty (t : tracker) :
  history t = [] ->
  generate_performance_report t = (["No historical data available"], inl tt).
Proof. intro H. unfold generate_performance_report. rewrite H. reflexivity. Qed.

End Comparison.

(** ** The comparison view and the sizes that enter its means *)

Section CompareBuilds.
Import Py Store BuildTimeTracker.
Local Open Scope list_scope.
Local Open Scope io_scope.

Lemma counted_sizes_spec (group : list build) (z : Z) :
  In z (counted_sizes group) <->
  exists b, In b group /\ image_size_bytes b = SizeInt z /\ z <> 0%Z.
Proof.
  induction group as [|b rest IH]; simpl.
  - split; [contradiction|]. intros (b & [] & _).
  - unfold counted_size.
    destruct (image_size_bytes b) as [| |s] eqn:E.
    + rewrite IH. split; intros (c & Hc & P); exists c.
      * split; [right; exact Hc|exact P].
      * destruct Hc as [<-|Hc]; [|split; assumption].
        destruct P as (P & _). congruence.
    + rewrite IH. split; intros (c & Hc & P); exists c.
      * split; [right; exact Hc|exact P].
      * destruct Hc as [<-|Hc]; [|split; assumption].
        destruct P as (P & _). congruence.
    + destruct (Z.eqb_spec s 0) as [Z0|NZ].
      * rewrite IH. split; intros (c & Hc & P); exists c.
        -- split; [right; exact Hc|exact P].
        -- destruct Hc as [<-|Hc]; [|split; assumption].
           destruct P as (P & N). rewrite E in P. injection P as ->.
           contradiction.
      * simpl. rewrite IH. split.
        -- intros [<-|(c & Hc & P)].
           ++ exists b. split; [left; reflexivity|]. split; assumption.
           ++ exists c. split; [right; exact Hc|exact P].
        -- intros (c & [<-|Hc] & P & N).
           ++ left. congruence.
           ++ right. exists c. repeat split; assumption.
Qed.

Lemma truthy_sizes_returns (group : list build) :
  sizes_present group -> truthy_sizes group = ret (counted_sizes group).
Proof.
  induction group as [|b rest IH]; intro H; [reflexivity|].
  assert (Hr : sizes_present rest) by (intros c Hc; apply H; right; exact Hc).
  assert (Hb : image_size_bytes b <> SizeAbsent) by (apply H; left; reflexivity).
  simpl. unfold size_item, counted_size.
  destruct (image_size_bytes b) as [| |z]; [contradiction| |].
  - rewrite bind_ret, (IH Hr), bind_ret. reflexivity.
  - rewrite bind_ret, (IH Hr), bind_ret. simpl.
    destruct (z =? 0)%Z; reflexivity.
Qed.

Lemma truthy_sizes_absent (group : list build) :
  ~ sizes_present group ->
  truthy_sizes group = raise (KeyError "image_size_bytes").
Proof.
  induction group as [|b rest IH]; intro H.
  - exfalso. apply H. intros b [].
  - simpl. unfold size_item.
    destruct (image_size_bytes b) as [| |z] eqn:E; [reflexivity| |];
      rewrite bind_ret, IH; try reflexivity;
      intro P; apply H; intros c [<-|Hc]; try (apply P; exact Hc);
      rewrite E; discriminate.
Qed.

Lemma mean_size_returns (group : list build) :
  sizes_present group -> counted_sizes group <> [] ->
  mean_size group = ret (mean_of_sizes group).
Proof.
  intros Hp Hc. unfold mean_size.
  rewrite (truthy_sizes_returns _ Hp), bind_ret, div_returns.
  - unfold mean_of_sizes, mean, len. rewrite length_map. reflexivity.
  - pose proof (len_pos _ Hc). lra.
Qed.

(** With no size to count the mean divides by zero. *)
Lemma mean_size_raises (group : list build) :
  sizes_present group -> counted_sizes group = [] ->
  mean_size group = raise ZeroDivisionError.
Proof.
  intros Hp Hc. unfold mean_size.
  rewrite (truthy_sizes_returns _ Hp), bind_ret, Hc. reflexivity.
Qed.

Lemma duration_comparison_printed (multi single : list build) :
  multi <> [] -> single <> [] -> ~ mean (durations single) == 0 ->
  let a := mean (durations multi) in
  let b := mean (durations single) in
  duration_comparison multi single
  = ([ (nl ++ "Build Duration:")%string;
       ("  Multi-Stage:  " ++ format_duration a)%string;
       ("  Single-Stage: " ++ format_duration b)%string;
       improvement_line (improvement_percent a b) ], inl tt).
Proof.
  intros Hm Hs Hz. cbv zeta. unfold duration_comparison.
  rewrite (mean_duration_returns _ Hm), bind_ret.
  rewrite (mean_duration_returns _ Hs), bind_ret.
  rewrite (div_returns _ _ Hz), bind_ret.
  reflexivity.
Qed.

Lemma size_comparison_printed (multi single : list build) :
  sizes_present multi -> sizes_present single ->
  counted_sizes multi <> [] -> counted_sizes single <> [] ->
  ~ mean_of_sizes single == 0 ->
  let a := mean_of_sizes multi in
  let b := mean_of_sizes single in
  size_comparison multi single
  = ([ (nl ++ "Image Size:")%string;
       ("  Multi-Stage:  " ++ get_human_readable_size (Some a))%string;
       ("  Single-Stage: " ++ get_human_readable_size (Some b))%string;
       reduction_line (improvement_percent a b) ], inl tt).
Proof.
  intros Pm Ps Cm Cs Hz. cbv zeta. unfold size_comparison.
  rewrite (mean_size_returns _ Pm Cm), bind_ret.
  rewrite (mean_size_returns _ Ps Cs), bind_ret.
  rewrite (div_returns _ _ Hz), bind_ret.
  reflexivity.
Qed.

Lemma compare_builds_steps (t : tracker) :
  let multi := of_type "multi-stage" (history t) in
  let single := of_type "single-stage" (history t) in
  multi <> [] -> single <> [] ->
  compare_builds t
  = (print (nl ++ str_mul "=" 70) ;;;
     print "Multi-Stage vs Single-Stage Comparison" ;;;
     print (str_mul "=" 70) ;;;
     duration_comparison multi single ;;;
     size_comparison multi single ;;;
     print (str_mul "=" 70 ++ nl)).
Proof.
  cbv zeta. intros Hm Hs. unfold compare_builds.
  rewrite (non_empty_true _ Hm), (non_empty_true _ Hs). reflexivity.
Qed.

Lemma compare_builds_needs_both (t : tracker) :
  of_type "multi-stage" (history t) = [] \/
  of_type "single-stage" (history t) = [] ->
  compare_builds t
  = (["Need both multi-stage and single-stage builds for comparison"], inl tt).
Proof.
  intro H. unfold compare_builds.
  destruct H as [H|H]; rewrite H; simpl.
  - reflexivity.
  - rewrite orb_true_r. reflexivity.
Qed.



(** The performance report completes on every history whose durations are
    not negative, whatever the sizes are. *)
Lemma report_never_raises (t : tracker) :
  durations_non_negative t -> outcome (generate_performance_report t) = inl tt.
Proof.
  intro Hd. destruct (history t) as [|b rest] eqn:E.
  - rewrite report_empty by exact E. reflexivity.
  - rewrite report_parts; [reflexivity|exact Hd|]. rewrite E. discriminate.
Qed.

(** C2, the defect.  Where both build types have records and the mean
    single-stage duration is not zero, a multi-stage group without one
    counted size (all sizes null, or zero) makes the comparison view raise
    a division by zero, after it has printed the duration block. *)
Theorem compare_builds_raises_without_sizes (t : tracker)
    (Hm : of_type "multi-stage" (history t) <> [])
    (Hs : of_type "single-stage" (history t) <> [])
    (Hz : ~ mean (durations (of_type "single-stage" (history t))) == 0)
    (Hp : sizes_present (of_type "multi-stage" (history t)))
    (Hc : counted_sizes (of_type "multi-stage" (history t)) = []) :
  raises (compare_builds t) ZeroDivisionError.
Proof.
  unfold raises. rewrite (compare_builds_steps t Hm Hs).
  rewrite !print_then. cbn [outcome snd].
  rewrite (outcome_bind _ _ tt).
  - apply outcome_bind_raise. unfold size_comparison.
    rewrite (mean_size_raises _ Hp Hc). reflexivity.
  - rewrite (duration_comparison_printed _ _ Hm Hs Hz). reflexivity.
Qed.

(** The comparison view also divides by the mean single-stage duration,
    which it does not check. *)
Lemma compare_builds_raises_zero_duration (t : tracker) :
  of_type "multi-stage" (history t) <> [] ->
  of_type "single-stage" (history t) <> [] ->
  mean (durations (of_type "single-stage" (history t))) == 0 ->
  raises (compare_builds t) ZeroDivisionError.
Proof.
  intros Hm Hs Hz. unfold raises. rewrite (compare_builds_steps t Hm Hs).
  rewrite !print_then. cbn [outcome snd].
  apply outcome_bind_raise. unfold duration_comparison.
  rewrite (mean_duration_returns _ Hm), bind_ret.
  rewrite (mean_duration_returns _ Hs), bind_ret.
  rewrite (div_raises _ _ Hz). reflexivity.
Qed.

Lemma compare_builds_raises_without_sizes_witness :
  raises (compare_builds all_null) ZeroDivisionError /\
  outcome (generate_performance_report all_null) = inl tt /\
  map image_size_human (history all_null) = ["N/A"; "N/A"].
Proof.
  split; [|split; reflexivity].
  apply compare_builds_raises_without_sizes.
  - discriminate.
  - discriminate.
  - vm_compute. discriminate.
  - intros b [<-|[]]. discriminate.
  - reflexivity.
Defined.

(** *** A zero size is treated as a missing one *)

Lemma null_if_zero_type (b : build) :
  build_type (null_if_zero b) = build_type b.
Proof.
  unfold null_if_zero. destruct (image_size_bytes b) as [| |z];
    try reflexivity. destruct (z =? 0)%Z; reflexivity.
Qed.

Lemma null_if_zero_duration (b : build) :
  duration_seconds (null_if_zero b) = duration_seconds b.
Proof.
  unfold null_if_zero. destruct (image_size_bytes b) as [| |z];
    try reflexivity. destruct (z =? 0)%Z; reflexivity.
Qed.

Lemma of_type_null_if_zero (ty : string) (builds : list build) :
  of_type ty (map null_if_zero builds) = map null_if_zero (of_type ty builds).
Proof.
  unfold of_type. induction builds as [|b rest IH]; [reflexivity|].
  simpl. rewrite null_if_zero_type, IH.
  destruct (String.eqb (build_type b) ty); reflexivity.
Qed.

Lemma mean_duration_null_if_zero (group : list build) :
  mean_duration (map null_if_zero group) = mean_duration group.
Proof.
  unfold mean_duration, len. rewrite map_map, length_map.
  rewrite (map_ext _ duration_seconds null_if_zero_duration). reflexivity.
Qed.

Lemma truthy_sizes_null_if_zero (group : list build) :
  truthy_sizes (map null_if_zero group) = truthy_sizes group.
Proof.
  induction group as [|b rest IH]; [reflexivity|].
  cbn [map truthy_sizes]. rewrite IH. unfold size_item, null_if_zero.
  destruct (image_size_bytes b) as [| |z] eqn:E; try (rewrite E; reflexivity).
  destruct (Z.eqb_spec z 0) as [->|N].
  - cbn [set_size image_size_bytes].
    destruct (truthy_sizes rest) as [o [l|e]]; reflexivity.
  - rewrite E. reflexivity.
Qed.

Lemma mean_size_null_if_zero (group : list build) :
  mean_size (map null_if_zero group) = mean_size group.
Proof. unfold mean_size. rewrite truthy_sizes_null_if_zero. reflexivity. Qed.

Lemma non_empty_map {A B : Type} (f : A -> B) (l : list A) :
  non_empty (map f l) = non_empty l.
Proof. destruct l; reflexivity. Qed.

(** C10.  In the comparison view a size of zero is left out of the mean
    image size of its group exactly as a missing size is: the mean is
    taken over the sizes that are recorded and not zero, and the whole
    view is the same when every zero size is replaced by a missing one. *)
Theorem zero_size_counts_as_null :
  (forall t : tracker,
      compare_builds (mkState (map null_if_zero (history t)) (file t))
      = compare_builds t) /\
  (forall group, mean_size (map null_if_zero group) = mean_size group) /\
  (forall group,
      sizes_present group ->
      mean_size group
      = div (sum (map inject_Z (counted_sizes group)))
            (len (counted_sizes group))) /\
  (forall group z,
      In z (counted_sizes group) <->
      exists b, In b group /\ image_size_bytes b = SizeInt z /\ z <> 0%Z) /\
  mean_size [sample "multi-stage" 40 (Some 0%Z);
             sample "multi-stage" 40 (Some 100%Z)] = ret (100 / 1).
Proof.
  split; [|split; [|split; [|split]]].
  - intro t. unfold compare_builds. cbn [history].
    rewrite !of_type_null_if_zero, !non_empty_map.
    unfold duration_comparison, size_comparison.
    rewrite !mean_duration_null_if_zero, !mean_size_null_if_zero.
    reflexivity.
  - apply mean_size_null_if_zero.
  - intros group H. unfold mean_size.
    rewrite (truthy_sizes_returns _ H), bind_ret. reflexivity.
  - apply counted_sizes_spec.
  - reflexivity.
Qed.

Lemma zero_size_counts_as_null_witness :
  mean_size [sample "multi-stage" 40 (Some 0%Z);
             sample "multi-stage" 40 None]
  = div (sum (map inject_Z [])) (len (@nil Z)).
Proof.
  apply (proj1 (proj2 (proj2 zero_size_counts_as_null))
           [sample "multi-stage" 40 (Some 0%Z); sample "multi-stage" 40 None]).
  intros b [<-|[<-|[]]]; discriminate.
Defined.

End CompareBuilds.

(** ** The tables of recent records *)

Section RecentTables.
Import Py Store.
Local Open Scope list_scope.
Local Open Scope io_scope.










(** *** The size tracker's report *)










End RecentTables.

(** ** The CSV export *)

Section CsvExport.
Import Py Store BuildTimeTracker.
Local Open Scope list_scope.

Lemma append_empty (s : string) : (s ++ "")%string = s.
Proof. induction s as [|c s IH]; simpl; [reflexivity|]. rewrite IH. reflexivity. Qed.

Lemma append_assoc (a b c : string) :
  ((a ++ b) ++ c)%string = (a ++ b ++ c)%string.
Proof. induction a as [|x a IH]; simpl; [reflexivity|]. rewrite IH. reflexivity. Qed.

Lemma concat_written (chunks : list string) :
  String.concat "" chunks = written chunks.
Proof.
  induction chunks as [|c rest IH]; [reflexivity|].
  destruct rest as [|d rest].
  - simpl. rewrite append_empty. reflexivity.
  - change (String.concat "" (c :: d :: rest))
      with (c ++ "" ++ String.concat "" (d :: rest))%string.
    rewrite IH. reflexivity.
Qed.

Lemma written_app (l1 l2 : list string) :
  written (l1 ++ l2) = (written l1 ++ written l2)%string.
Proof.
  induction l1 as [|c l1 IH]; simpl; [reflexivity|].
  rewrite IH, append_assoc. reflexivity.
Qed.

(** The writes of one row add up to its line. *)
Lemma written_row (cells : list string) :
  cells <> [] ->
  written (csv_writes cells) = (String.concat "," cells ++ nl)%string.
Proof.
  induction cells as [|c rest IH]; intro H; [contradiction|].
  destruct rest as [|d rest].
  - simpl. rewrite append_empty. reflexivity.
  - change (csv_writes (c :: d :: rest))
      with ((c ++ ",")%string :: csv_writes (d :: rest)).
    change (String.concat "," (c :: d :: rest))
      with (c ++ "," ++ String.concat "," (d :: rest))%string.
    cbn [written]. rewrite IH by discriminate.
    rewrite !append_assoc. reflexivity.
Qed.

Lemma written_rows (builds : list build) :
  written (flat_map (fun b => csv_writes (csv_cells b)) builds)
  = written (map csv_line builds).
Proof.
  induction builds as [|b rest IH]; [reflexivity|].
  cbn [flat_map map written]. rewrite written_app, IH.
  rewrite written_row by discriminate. reflexivity.
Qed.

(** The export of a history that is not empty: the header line, then one
    line per record in the order of the history, each of ten values. *)
Lemma export_csv_layout (filename : string) (t : tracker) :
  history t <> [] ->
  fst (export_csv filename t)
  = Some (csv_header ++ written (map csv_line (history t)))%string /\
  List.length (map csv_line (history t)) = List.length (history t) /\
  forall b, List.length (csv_cells b) = 10%nat.
Proof.
  intro H. split; [|split; [apply length_map|reflexivity]].
  unfold export_csv. rewrite (non_empty_true _ H). cbn [fst].
  rewrite concat_written. cbn [written]. rewrite written_rows. reflexivity.
Qed.

(** C3, the defect.  A record with a null [image_size_bytes] is exported
    with [None] in the ninth column: the default [0] of
    [build.get('image_size_bytes', 0)] is taken only when the key is
    absent, and [track_build] always stores the key. *)
Theorem export_csv_null_size :
  map image_size_bytes (history null_size) = [SizeNone] /\
  map (fun b => nth_error (csv_cells b) 8) (history null_size)
  = [Some "None"] /\
  fst (export_csv "build-history.csv" null_size)
  = Some (csv_header
            ++ "2024-05-01T10:20:30.123456,0123456789abcdef,single-stage,app:latest,50.0,3,4,75.0,None,False"
            ++ nl)%string /\
  size_cell SizeAbsent = "0".
Proof. repeat split; vm_compute; reflexivity. Qed.

End CsvExport.

(** * Further properties of the trackers *)

(** ** Rounding *)

Section Rounding.
Import Py.



Lemma round_half_even_ge (y : Q) (n : Z) :
  inject_Z n <= y -> (n <= round_half_even y)%Z.
Proof.
  intro H. unfold round_half_even.
  assert (F : (n <= Qfloor y)%Z) by (apply floor_at_least; exact H).
  destruct (Qcompare (y - inject_Z (Qfloor y)) (1 # 2));
    [destruct (Z.even (Qfloor y))| |]; lia.
Qed.

Lemma round_n_2_unfold (x : Q) :
  round_n 2 x
  = (if Qltb x 0
     then - inject_Z (round_half_even (Qabs x * 100))
     else inject_Z (round_half_even (Qabs x * 100))) / 100.
Proof. reflexivity. Qed.



Lemma round_n_2_nonneg (x : Q) : 0 <= x -> 0 <= round_n 2 x.
Proof.
  intro H. rewrite round_n_2_unfold.
  assert (E : Qltb x 0 = false) by (apply Qltb_ge; exact H).
  rewrite E.
  assert (A : Qabs x == x) by (apply Qabs_pos; exact H).
  assert (P : (0 <= round_half_even (Qabs x * 100))%Z).
  { apply round_half_even_ge. change (inject_Z 0) with 0. rewrite A. lra. }
  rewrite Zle_Qle in P. change (inject_Z 0) with 0 in P.
  apply Qle_shift_div_l; lra.
Qed.


End Rounding.

(** ** Entries made by [track_build] *)

Section TrackedEntries.
Import Py Store BuildTimeTracker.
Local Open Scope list_scope.

Lemma build_image_statistics d c i n output el :
  exists out,
    build_image d c i n (Completed output) el
    = (out, inl (BuildSucceeded el
                   (str_count output "CACHED") (str_count output "Step ")
                   (if (0 <? str_count output "Step ")%Z
                    then Float (inject_Z (str_count output "CACHED")
                                / inject_Z (str_count output "Step ") * 100)
                    else Int 0)
                   output)).
Proof. unfold build_image. cbn. eexists. reflexivity. Qed.

(** The entry a call appends, field by field. *)
Lemma appended_entry (c : call) (t : tracker) (e : build) :
  history (fst (track c t)) = history t ++ [e] ->
  exists output,
    run (call_world c) = Completed output /\
    e = {|
      timestamp := now (call_world c);
      commit := or_unknown (call_commit c);
      build_type := call_type c;
      image_name := call_image c;
      dockerfile := call_dockerfile c;
      no_cache := call_no_cache c;
      duration_seconds := round_n 2 (elapsed (call_world c));
      duration_human := format_duration (elapsed (call_world c));
      cache_hits := str_count output "CACHED";
      total_steps := str_count output "Step ";
      cache_hit_rate :=
        round2_number
          (if (0 <? str_count output "Step ")%Z
           then Float (inject_Z (str_count output "CACHED")
                       / inject_Z (str_count output "Step ") * 100)
           else Int 0);
      image_size_bytes :=
        size_of_inspection
          (get_image_size (call_image c) (inspected (call_world c)));
      image_size_human :=
        get_human_readable_size
          (option_map inject_Z
             (get_image_size (call_image c) (inspected (call_world c))))
    |}.
Proof.
  intro H. destruct (built c) eqn:B.
  - unfold built in B. unfold track, track_build in H.
    destruct (run (call_world c)) as [output|err]; [|discriminate].
    exists output. split; [reflexivity|].
    destruct (build_image_statistics (call_dockerfile c) (call_context c)
                (call_image c) (call_no_cache c) output
                (elapsed (call_world c))) as (out & E).
    rewrite E in H.
    destruct (write (call_world c)); cbn in H;
      apply app_inv_head in H; injection H as <-; reflexivity.
  - destruct (track_not_built c t B) as (E & _). rewrite E in H.
    apply (f_equal (@List.length build)) in H.
    rewrite length_app in H. simpl in H. lia.
Qed.






(** X1.  The history only grows: after any series of [track_build] calls,
    whatever each returned or raised, the tracker holds the history it had
    followed by one entry per call whose build succeeded; nothing is edited
    or removed, and a failed build adds nothing. *)
Theorem history_only_grows (t : tracker) (cs : list call) :
  exists added,
    history (after_calls t cs) = history t ++ added /\
    List.length added = count_calls built cs.
Proof.
  revert t. induction cs as [|c cs IH]; intro t.
  - exists []. split; [symmetry; apply app_nil_r|reflexivity].
  - change (after_calls t (c :: cs)) with (after_calls (fst (track c t)) cs).
    destruct (IH (fst (track c t))) as (added & E & L). rewrite E.
    unfold count_calls in *. simpl filter.
    destruct (built c) eqn:B.
    + destruct (track_built c t B) as (e & out & T). rewrite T.
      exists (e :: added). split.
      * destruct (write (call_world c)); cbn [fst history];
          rewrite <- app_assoc; reflexivity.
      * simpl. rewrite L. reflexivity.
    + destruct (track_not_built c t B) as (T & _). rewrite T.
      exists added. split; [reflexivity|exact L].
Qed.

(** X3.  Every entry [track_build] adds has the size key, so a store that
    has it in every entry keeps that through any series of calls; in
    particular a store filled by the tracker alone, from a missing file on,
    never lacks the key. *)
Theorem sizes_stay_present (t : tracker) (cs : list call)
    (H : sizes_present (history t)) :
  sizes_present (history (after_calls t cs)) /\
  sizes_present (history (after_calls (mkState [] None) cs)).
Proof.
  assert (G : forall cs t, sizes_present (history t) ->
                           sizes_present (history (after_calls t cs))).
  { clear. induction cs as [|c cs IH]; intros t H; [exact H|].
    change (after_calls t (c :: cs)) with (after_calls (fst (track c t)) cs).
    apply IH. destruct (built c) eqn:B.
    - destruct (track_built c t B) as (e & out & T).
      assert (E : history (fst (track c t)) = history t ++ [e]).
      { rewrite T. destruct (write (call_world c)); reflexivity. }
      rewrite E. intros b Hb. apply in_app_or in Hb.
      destruct Hb as [Hb|[<-|[]]]; [apply H; exact Hb|].
      destruct (appended_entry c t e E) as (output & _ & ->).
      cbn [image_size_bytes]. destruct (get_image_size _ _); discriminate.
    - destruct (track_not_built c t B) as (T & _). rewrite T. exact H. }
  split; [apply G; exact H|]. apply G. intros b [].
Qed.

End TrackedEntries.

(** ** When the reports complete *)

Section ReportOutcomes.
Import Py Store BuildTimeTracker.
Local Open Scope list_scope.
Local Open Scope io_scope.

Lemma sizes_present_of_type (ty : string) (builds : list build) :
  sizes_present builds -> sizes_present (of_type ty builds).
Proof. intros H b Hb. apply H. eapply of_type_incl. exact Hb. Qed.

(** The size block raises as soon as one of its three divisors is zero. *)
Lemma size_comparison_raises (multi single : list build) :
  sizes_present multi -> sizes_present single ->
  counted_sizes multi = [] \/ counted_sizes single = [] \/
  mean_of_sizes single == 0 ->
  outcome (size_comparison multi single) = inr ZeroDivisionError.
Proof.
  intros Pm Ps H. unfold size_comparison.
  destruct (counted_sizes multi) as [|m ms] eqn:Cm.
  - rewrite (mean_size_raises _ Pm Cm). reflexivity.
  - assert (Nm : counted_sizes multi <> []) by (rewrite Cm; discriminate).
    rewrite (mean_size_returns _ Pm Nm), bind_ret.
    destruct (counted_sizes single) as [|x xs] eqn:Cs.
    + rewrite (mean_size_raises _ Ps Cs). reflexivity.
    + assert (Ns : counted_sizes single <> []) by (rewrite Cs; discriminate).
      rewrite (mean_size_returns _ Ps Ns), bind_ret.
      destruct H as [H|[H|H]]; [discriminate|discriminate|].
      rewrite (div_raises _ _ H). reflexivity.
Qed.

Lemma compare_builds_complete (t : tracker) :
  sizes_present (history t) -> comparable t ->
  let multi := of_type "multi-stage" (history t) in
  let single := of_type "single-stage" (history t) in
  compare_builds t
  = ([ (nl ++ str_mul "=" 70)%string;
       "Multi-Stage vs Single-Stage Comparison";
       str_mul "=" 70;
       (nl ++ "Build Duration:")%string;
       ("  Multi-Stage:  " ++ format_duration (mean (durations multi)))%string;
       ("  Single-Stage: " ++ format_duration (mean (durations single)))%string;
       improvement_line
         (improvement_percent (mean (durations multi)) (mean (durations single)));
       (nl ++ "Image Size:")%string;
       ("  Multi-Stage:  "
          ++ get_human_readable_size (Some (mean_of_sizes multi)))%string;
       ("  Single-Stage: "
          ++ get_human_readable_size (Some (mean_of_sizes single)))%string;
       reduction_line
         (improvement_percent (mean_of_sizes multi) (mean_of_sizes single));
       (str_mul "=" 70 ++ nl)%string ],
     inl tt).
Proof.
  intros Hp (Hm & Hs & Hz & Cm & Cs & Sz). cbv zeta.
  rewrite (compare_builds_steps t Hm Hs).
  rewrite (duration_comparison_printed _ _ Hm Hs Hz).
  rewrite (size_comparison_printed _ _
             (sizes_present_of_type _ _ Hp) (sizes_present_of_type _ _ Hp)
             Cm Cs Sz).
  reflexivity.
Qed.

Lemma compare_builds_incomplete (t : tracker) :
  sizes_present (history t) ->
  of_type "multi-stage" (history t) <> [] ->
  of_type "single-stage" (history t) <> [] ->
  ~ comparable t ->
  raises (compare_builds t) ZeroDivisionError.
Proof.
  intros Hp Hm Hs Hn.
  destruct (Qeq_dec (mean (durations (of_type "single-stage" (history t)))) 0)
    as [Z|Hz].
  - apply compare_builds_raises_zero_duration; assumption.
  - unfold raises. rewrite (compare_builds_steps t Hm Hs).
    rewrite !print_then. cbn [outcome snd].
    rewrite (outcome_bind _ _ tt)
      by (rewrite (duration_comparison_printed _ _ Hm Hs Hz); reflexivity).
    apply outcome_bind_raise.
    apply size_comparison_raises; try (apply sizes_present_of_type; exact Hp).
    destruct (counted_sizes (of_type "multi-stage" (history t))) as [|m ms] eqn:Cm;
      [left; reflexivity|].
    destruct (counted_sizes (of_type "single-stage" (history t))) as [|x xs] eqn:Cs;
      [right; left; reflexivity|].
    right. right.
    destruct (Qeq_dec (mean_of_sizes (of_type "single-stage" (history t))) 0)
      as [Z|Sz]; [exact Z|].
    exfalso. apply Hn. unfold comparable. rewrite Cm, Cs.
    repeat split; try assumption; discriminate.
Qed.

Lemma comparable_or_not (t : tracker) :
  of_type "multi-stage" (history t) <> [] ->
  of_type "single-stage" (history t) <> [] ->
  comparable t \/ ~ comparable t.
Proof.
  intros Hm Hs. unfold comparable.
  destruct (Qeq_dec (mean (durations (of_type "single-stage" (history t)))) 0);
    [right; tauto|].
  destruct (counted_sizes (of_type "multi-stage" (history t)));
    [right; tauto|].
  destruct (counted_sizes (of_type "single-stage" (history t)));
    [right; tauto|].
  destruct (Qeq_dec (mean_of_sizes (of_type "single-stage" (history t))) 0);
    [right; tauto|].
  left. repeat split; try assumption; discriminate.
Qed.

(** X4.  On a store whose entries all have the size key, the comparison
    view completes exactly when a build type has no record (it then only
    says that it needs both) or when everything it divides by is there and
    not zero (it then prints its twelve lines); in every other case it
    raises a division by zero, and it never raises anything else. *)
Theorem compare_builds_outcome (t : tracker)
    (Hp : sizes_present (history t)) :
  let multi := of_type "multi-stage" (history t) in
  let single := of_type "single-stage" (history t) in
  (outcome (compare_builds t) = inl tt <->
   multi = [] \/ single = [] \/ comparable t) /\
  (outcome (compare_builds t) = inl tt \/
   raises (compare_builds t) ZeroDivisionError) /\
  (multi = [] \/ single = [] ->
   printed (compare_builds t)
   = ["Need both multi-stage and single-stage builds for comparison"]) /\
  (comparable t -> List.length (printed (compare_builds t)) = 12%nat).
Proof.
  cbv zeta.
  assert (T : of_type "multi-stage" (history t) = [] \/
              of_type "single-stage" (history t) = [] \/
              (of_type "multi-stage" (history t) <> [] /\
               of_type "single-stage" (history t) <> [])).
  { destruct (of_type "multi-stage" (history t)); [left; reflexivity|].
    destruct (of_type "single-stage" (history t)); [right; left; reflexivity|].
    right. right. split; discriminate. }
  assert (D : comparable t ->
              outcome (compare_builds t) = inl tt).
  { intro C. rewrite (compare_builds_complete t Hp C). reflexivity. }
  assert (N : of_type "multi-stage" (history t) = [] \/
              of_type "single-stage" (history t) = [] ->
              compare_builds t
              = (["Need both multi-stage and single-stage builds for comparison"],
                 inl tt))
    by apply compare_builds_needs_both.
  split; [|split; [|split]].
  - split.
    + intro R. destruct T as [E|[E|(Hm & Hs)]]; [tauto|tauto|].
      right. right.
      destruct (comparable_or_not t Hm Hs) as [C|C]; [exact C|].
      pose proof (compare_builds_incomplete t Hp Hm Hs C) as X.
      unfold raises in X. congruence.
    + intros [E|[E|C]]; [rewrite N by tauto; reflexivity
                         |rewrite N by tauto; reflexivity|exact (D C)].
  - destruct T as [E|[E|(Hm & Hs)]];
      [left; rewrite N by tauto; reflexivity
      |left; rewrite N by tauto; reflexivity|].
    destruct (comparable_or_not t Hm Hs) as [C|C]; [left; exact (D C)|right].
    apply compare_builds_incomplete; assumption.
  - intro E. rewrite (N E). reflexivity.
  - intro C. rewrite (compare_builds_complete t Hp C). reflexivity.
Qed.

Lemma compare_builds_outcome_witness :
  let t := store_of [sample "multi-stage" 40 (Some 1048576%Z);
                     sample "single-stage" 50 (Some 4194304%Z)] in
  sizes_present (history t) /\ comparable t /\
  outcome (compare_builds t) = inl tt.
Proof.
  cbv zeta.
  assert (Hp : sizes_present
                 (history (store_of [sample "multi-stage" 40 (Some 1048576%Z);
                                     sample "single-stage" 50 (Some 4194304%Z)]))).
  { intros b [<-|[<-|[]]]; discriminate. }
  assert (C : comparable
                (store_of [sample "multi-stage" 40 (Some 1048576%Z);
                           sample "single-stage" 50 (Some 4194304%Z)])).
  { unfold comparable. cbv zeta.
    repeat split; try discriminate; intro H; vm_compute in H; discriminate. }
  split; [exact Hp|]. split; [exact C|].
  apply (proj1 (compare_builds_outcome _ Hp)). right. right. exact C.
Defined.

(** X5.  An entry without the key ["image_size_bytes"] in the multi-stage
    group makes the comparison view raise [KeyError] (once the duration
    block is printed), while the CSV export accepts the same entry and
    writes [0] in its size column. *)
Theorem compare_builds_missing_key (t : tracker) (b : build)
    (Hb : In b (of_type "multi-stage" (history t)))
    (Hs : of_type "single-stage" (history t) <> [])
    (Hz : ~ mean (durations (of_type "single-stage" (history t))) == 0)
    (Ha : image_size_bytes b = SizeAbsent) :
  raises (compare_builds t) (KeyError "image_size_bytes") /\
  nth_error (csv_cells b) 8 = Some "0"%string /\
  exists text, fst (export_csv "build-history.csv" t) = Some text.
Proof.
  assert (Hm : of_type "multi-stage" (history t) <> []).
  { intro E. rewrite E in Hb. destruct Hb. }
  split; [|split].
  - unfold raises. rewrite (compare_builds_steps t Hm Hs).
    rewrite !print_then. cbn [outcome snd].
    rewrite (outcome_bind _ _ tt)
      by (rewrite (duration_comparison_printed _ _ Hm Hs Hz); reflexivity).
    apply outcome_bind_raise. unfold size_comparison, mean_size.
    rewrite truthy_sizes_absent; [reflexivity|].
    intro P. apply (P b Hb). exact Ha.
  - unfold csv_cells. cbn [nth_error]. rewrite Ha. reflexivity.
  - unfold export_csv.
    assert (N : history t <> []).
    { intro E. rewrite E in Hs. apply Hs. reflexivity. }
    rewrite (non_empty_true _ N). eexists. reflexivity.
Qed.

Lemma compare_builds_missing_key_witness :
  raises (compare_builds
            (store_of [set_size SizeAbsent (sample "multi-stage" 40 None);
                       sample "single-stage" 50 None]))
         (KeyError "image_size_bytes").
Proof.
  apply (compare_builds_missing_key
           (store_of [set_size SizeAbsent (sample "multi-stage" 40 None);
                      sample "single-stage" 50 None])
           (set_size SizeAbsent (sample "multi-stage" 40 None))).
  - left. reflexivity.
  - discriminate.
  - intro H. vm_compute in H. discriminate.
  - reflexivity.
Defined.

(** X6.  The performance report completes on every history whose durations
    are not negative, whatever sizes, types and flags the entries have: an
    empty history gives the one line that says so, any other the banner
    with the number of builds.  The assumption is needed: with a mean of
    zero above a negative one the comparison divides by zero. *)
Theorem report_completes (t : tracker) (Hd : durations_non_negative t) :
  outcome (generate_performance_report t) = inl tt /\
  (history t = [] ->
   printed (generate_performance_report t) = ["No historical data available"]) /\
  (history t <> [] ->
   exists sections,
     printed (generate_performance_report t) = report_banner t ++ sections) /\
  raises (generate_performance_report
            (store_of [sample "multi-stage" (-1) None;
                       sample "single-stage" 0 None]))
         ZeroDivisionError.
Proof.
  split; [|split; [|split]].
  - destruct (history t) as [|b rest] eqn:E.
    + rewrite report_empty by exact E. reflexivity.
    + rewrite report_parts; [reflexivity|exact Hd|]. rewrite E. discriminate.
  - intro E. rewrite report_empty by exact E. reflexivity.
  - intro N. rewrite (report_parts t Hd N). eexists. reflexivity.
  - reflexivity.
Qed.

Lemma report_completes_witness :
  durations_non_negative all_null /\
  outcome (generate_performance_report all_null) = inl tt.
Proof.
  assert (Hd : durations_non_negative all_null).
  { intros b [<-|[<-|[]]]; unfold Qle; simpl; lia. }
  split; [exact Hd|]. exact (proj1 (report_completes all_null Hd)).
Defined.

End ReportOutcomes.

(** ** Entries made by [track_images] *)

Section SizeTracking.
Import Py Store.
Local Open Scope list_scope.
Local Open Scope io_scope.

Lemma inject_Z_zero (z : Z) : inject_Z z == 0 <-> z = 0%Z.
Proof. unfold Qeq. simpl. lia. Qed.

(** The entry [track_images] makes from two sizes, the second not zero. *)
Lemma new_entry_found (mi si : string) (commit_sha : option string)
    (w : SizeTracker.world) (m s : Z) :
  SizeTracker.inspect_multi w = SizeTracker.Inspected m ->
  SizeTracker.inspect_single w = SizeTracker.Inspected s ->
  s <> 0%Z ->
  SizeTracker.new_entry mi si commit_sha w
  = ([], inl (Some {|
       SizeTracker.timestamp := SizeTracker.now w;
       SizeTracker.commit := SizeTracker.or_unknown commit_sha;
       SizeTracker.multi_stage :=
         SizeTracker.mkImage mi m
           (SizeTracker.size_ladder ["B"; "KB"; "MB"; "GB"] (inject_Z m));
       SizeTracker.single_stage :=
         SizeTracker.mkImage si s
           (SizeTracker.size_ladder ["B"; "KB"; "MB"; "GB"] (inject_Z s));
       SizeTracker.reduction :=
         SizeTracker.mkReduction (s - m)
           (SizeTracker.size_ladder ["B"; "KB"; "MB"; "GB"] (inject_Z (s - m)))
           (round_n 2 (inject_Z (s - m) / inject_Z s * 100))
     |})).
Proof.
  intros Hm Hs Hz. unfold SizeTracker.new_entry. rewrite Hm, Hs.
  unfold SizeTracker.get_image_size. rewrite !bind_ret.
  rewrite div_returns by (rewrite inject_Z_zero; exact Hz).
  unfold SizeTracker.get_human_readable_size. rewrite !bind_ret.
  reflexivity.
Qed.

Lemma new_entry_zero (mi si : string) (commit_sha : option string)
    (w : SizeTracker.world) (m : Z) :
  SizeTracker.inspect_multi w = SizeTracker.Inspected m ->
  SizeTracker.inspect_single w = SizeTracker.Inspected 0 ->
  SizeTracker.new_entry mi si commit_sha w = ([], inr ZeroDivisionError).
Proof.
  intros Hm Hs. unfold SizeTracker.new_entry. rewrite Hm, Hs.
  unfold SizeTracker.get_image_size. rewrite !bind_ret.
  rewrite div_raises by reflexivity. reflexivity.
Qed.

Lemma new_entry_missing (mi si : string) (commit_sha : option string)
    (w : SizeTracker.world) :
  no_size (SizeTracker.inspect_multi w) \/
  no_size (SizeTracker.inspect_single w) ->
  exists lines,
    SizeTracker.new_entry mi si commit_sha w = (lines, inl None) /\
    In "Error: Could not retrieve image sizes"%string lines /\
    (2 <= List.length lines)%nat.
Proof.
  intro H. unfold SizeTracker.new_entry, SizeTracker.get_image_size.
  destruct (SizeTracker.inspect_multi w) as [m| |em],
           (SizeTracker.inspect_single w) as [s| |es];
    try (destruct H as [[]|[]]; fail);
    eexists; (split; [cbn; reflexivity|split; [cbn; tauto|cbn; lia]]).
Qed.

Lemma track_images_found (mi si : string) (commit_sha : option string)
    (w : SizeTracker.world) (t : SizeTracker.tracker) (e : SizeTracker.entry) :
  SizeTracker.new_entry mi si commit_sha w = ([], inl (Some e)) ->
  SizeTracker.track_images mi si commit_sha w t
  = match SizeTracker.write w with
    | WriteOk =>
        (mkState (history t ++ [e]) (Some (Document (history t ++ [e]))),
         ([], inl (Some e)))
    | OpenFails => (mkState (history t ++ [e]) (file t), ([], inr OSError))
    | WriteFails =>
        (mkState (history t ++ [e]) (Some Unparsable), ([], inr OSError))
    end.
Proof.
  intro E. unfold SizeTracker.track_images. rewrite E.
  destruct (SizeTracker.write w); reflexivity.
Qed.

(** What an entry that [track_images] appended was made from. *)
Lemma track_images_appends (mi si : string) (commit_sha : option string)
    (w : SizeTracker.world) (t : SizeTracker.tracker) (e : SizeTracker.entry) :
  history (fst (SizeTracker.track_images mi si commit_sha w t))
  = history t ++ [e] ->
  exists m s,
    SizeTracker.inspect_multi w = SizeTracker.Inspected m /\
    SizeTracker.inspect_single w = SizeTracker.Inspected s /\
    s <> 0%Z /\
    SizeTracker.new_entry mi si commit_sha w = ([], inl (Some e)).
Proof.
  intro H.
  assert (K : history t <> history t ++ [e]).
  { intro X. apply (f_equal (@List.length SizeTracker.entry)) in X.
    rewrite length_app in X. simpl in X. lia. }
  assert (M : no_size (SizeTracker.inspect_multi w) \/
              no_size (SizeTracker.inspect_single w) -> False).
  { intro N. destruct (new_entry_missing mi si commit_sha w N) as (l & E & _).
    unfold SizeTracker.track_images in H. rewrite E in H. apply K. exact H. }
  destruct (SizeTracker.inspect_multi w) as [m| |em] eqn:Im;
    [|exfalso; apply M; left; exact I..].
  destruct (SizeTracker.inspect_single w) as [s| |es] eqn:Is;
    [|exfalso; apply M; right; exact I..].
  exists m, s. split; [reflexivity|]. split; [reflexivity|].
  destruct (Z.eq_dec s 0) as [->|Hz].
  - exfalso. apply K. unfold SizeTracker.track_images in H.
    rewrite (new_entry_zero mi si commit_sha w m Im Is) in H. exact H.
  - split; [exact Hz|].
    pose proof (new_entry_found mi si commit_sha w m s Im Is Hz) as E.
    rewrite (track_images_found _ _ _ _ t _ E) in H.
    destruct (SizeTracker.write w); cbn in H;
      apply app_inv_head in H; injection H as <-; exact E.
Qed.

(** X7.  When either inspection gives no size, [track_images] returns
    [False] after the error lines, the last of which says that the sizes
    could not be retrieved, and the tracker and its file stay as they
    were. *)
Theorem track_images_without_sizes (mi si : string)
    (commit_sha : option string) (w : SizeTracker.world)
    (t : SizeTracker.tracker)
    (H : no_size (SizeTracker.inspect_multi w) \/
         no_size (SizeTracker.inspect_single w)) :
  fst (SizeTracker.track_images mi si commit_sha w t) = t /\
  outcome (snd (SizeTracker.track_images mi si commit_sha w t)) = inl None /\
  In "Error: Could not retrieve image sizes"%string
     (printed (snd (SizeTracker.track_images mi si commit_sha w t))) /\
  (2 <= List.length
          (printed (snd (SizeTracker.track_images mi si commit_sha w t))))%nat.
Proof.
  destruct (new_entry_missing mi si commit_sha w H) as (lines & E & I & L).
  unfold SizeTracker.track_images. rewrite E. cbn.
  repeat split; assumption.
Qed.

Lemma track_images_without_sizes_witness :
  fst (SizeTracker.track_images "a" "b" None nothing_found (mkState [] None))
  = mkState [] None.
Proof.
  apply (track_images_without_sizes "a" "b" None nothing_found (mkState [] None)).
  left. exact I.
Defined.

(** X8.  A single-stage size of zero makes [track_images] raise a division
    by zero before anything is recorded: the tracker and its file stay as
    they were.  So no entry the tracker makes has a single-stage size of
    zero. *)
Theorem track_images_zero_single (mi si : string)
    (commit_sha : option string) (w : SizeTracker.world)
    (t : SizeTracker.tracker) (m : Z)
    (Hm : SizeTracker.inspect_multi w = SizeTracker.Inspected m)
    (Hs : SizeTracker.inspect_single w = SizeTracker.Inspected 0) :
  fst (SizeTracker.track_images mi si commit_sha w t) = t /\
  raises (snd (SizeTracker.track_images mi si commit_sha w t))
         ZeroDivisionError /\
  forall w' t' e,
    history (fst (SizeTracker.track_images mi si commit_sha w' t'))
    = history t' ++ [e] ->
    SizeTracker.size_bytes (SizeTracker.single_stage e) <> 0%Z.
Proof.
  split; [|split].
  - unfold SizeTracker.track_images.
    rewrite (new_entry_zero mi si commit_sha w m Hm Hs). reflexivity.
  - unfold SizeTracker.track_images, raises.
    rewrite (new_entry_zero mi si commit_sha w m Hm Hs). reflexivity.
  - intros w' t' e H.
    destruct (track_images_appends mi si commit_sha w' t' e H)
      as (m' & s' & Im & Is & Hz & E).
    rewrite (new_entry_found mi si commit_sha w' m' s' Im Is Hz) in E.
    injection E as <-. exact Hz.
Qed.

Lemma track_images_zero_single_witness :
  raises (snd (SizeTracker.track_images "a" "b" None zero_single
                 (mkState [] None)))
         ZeroDivisionError.
Proof.
  apply (track_images_zero_single "a" "b" None zero_single (mkState [] None)
           100 eq_refl eq_refl).
Defined.

Lemma inject_Z_sub (a b : Z) : inject_Z (a - b) == inject_Z a - inject_Z b.
Proof.
  unfold Z.sub. rewrite inject_Z_plus, inject_Z_opp. reflexivity.
Qed.




End SizeTracking.

(** ** The averages of the size report *)

Section TrendAverages.
Import Py Store.
Local Open Scope list_scope.
Local Open Scope io_scope.






End TrendAverages.

(** ** The command lines *)

Section CommandLine.
Import Py Store BuildTimeTracker.
Local Open Scope list_scope.


(** X11.  With [--report], [--compare] or [--export-csv] the build-time
    command runs no build and leaves the backing file as it is: the run is
    the same whatever the outside world would do, and it never ends in
    [sys.exit].  [--report] wins over the other two and [--compare] over
    [--export-csv]: a CSV file is written only when the export flag is the
    only one of the three. *)
Theorem main_reporting (a : args) (w : world)
    (f : option (file_content build)) (H : reporting a = true) :
  main_file (main a w f) = f /\
  (forall w', main a w' f = main a w f) /\
  (forall status, main_ending (main a w f) <> Exited status) /\
  (main_csv (main a w f) <> None ->
   arg_report a = false /\ arg_compare a = false /\ arg_export_csv a = true) /\
  (forall tracker,
      init f = inl tracker ->
      (arg_report a = true ->
       main_printed (main a w f) = printed (generate_performance_report tracker)) /\
      (arg_report a = false -> arg_compare a = true ->
       main_printed (main a w f) = printed (compare_builds tracker))).
Proof.
  unfold reporting in H. unfold main.
  destruct (init f) as [tracker|e] eqn:I.
  - destruct (arg_report a) eqn:R; [|destruct (arg_compare a) eqn:C;
      [|destruct (arg_export_csv a) eqn:X; [|discriminate]]];
      (split; [reflexivity|]; split; [intros; reflexivity|];
       split; [intro; cbn; destruct (outcome _); discriminate|]; split).
    + intro N. exfalso. apply N. reflexivity.
    + intros t0 E. injection E as <-. split; [reflexivity|discriminate].
    + intro N. exfalso. apply N. reflexivity.
    + intros t0 E. injection E as <-. split; [discriminate|reflexivity].
    + intros _. repeat split.
    + intros t0 E. split; discriminate.
  - split; [reflexivity|]. split; [intros; reflexivity|].
    split; [intro; discriminate|]. split.
    + intro N. exfalso. apply N. reflexivity.
    + intros t0 E. discriminate.
Qed.

Lemma main_reporting_witness :
  main_file (main (mkArgs "d" "c" "i" "multi-stage" None false
                          true true true "build-history.json")
                  (world_of WriteOk) None) = None.
Proof.
  apply (main_reporting (mkArgs "d" "c" "i" "multi-stage" None false
                                true true true "build-history.json")
           (world_of WriteOk) None eq_refl).
Defined.




(** X13.  The size command: with [--report] or [--export-csv] it inspects
    no image and leaves the backing file as it is.  Otherwise, on a file
    that loads: when an image is not found it ends in [sys.exit(1)] with the
    file untouched; when the single-stage size is zero the division by zero
    escapes, the file untouched again; when both sizes are found, the
    second not zero, and the file can be rewritten, it returns and the file
    holds the loaded history followed by the new entry. *)
Theorem size_main_outcome (a : SizeTracker.args) (w : SizeTracker.world)
    (f : option (file_content SizeTracker.entry))
    (tracker : SizeTracker.tracker)
    (I : SizeTracker.init f = inl tracker) :
  (SizeTracker.arg_report a || SizeTracker.arg_export_csv a = true ->
   SizeTracker.main_file (SizeTracker.main a w f) = f /\
   forall w', SizeTracker.main a w' f = SizeTracker.main a w f) /\
  (SizeTracker.arg_report a || SizeTracker.arg_export_csv a = false ->
   (no_size (SizeTracker.inspect_multi w) \/
    no_size (SizeTracker.inspect_single w) ->
    SizeTracker.main_ending (SizeTracker.main a w f) = SizeTracker.Exited 1 /\
    SizeTracker.main_file (SizeTracker.main a w f) = f /\
    last (SizeTracker.main_printed (SizeTracker.main a w f)) ""%string
    = "Failed to track image sizes"%string) /\
   (forall m,
       SizeTracker.inspect_multi w = SizeTracker.Inspected m ->
       SizeTracker.inspect_single w = SizeTracker.Inspected 0 ->
       SizeTracker.main_ending (SizeTracker.main a w f)
       = SizeTracker.Raised ZeroDivisionError /\
       SizeTracker.main_file (SizeTracker.main a w f) = f) /\
   (forall m s,
       SizeTracker.inspect_multi w = SizeTracker.Inspected m ->
       SizeTracker.inspect_single w = SizeTracker.Inspected s ->
       s <> 0%Z -> SizeTracker.write w = WriteOk ->
       SizeTracker.main_ending (SizeTracker.main a w f) = SizeTracker.Returned /\
       exists e,
         SizeTracker.main_file (SizeTracker.main a w f)
         = Some (Document (history tracker ++ [e])) /\
         SizeTracker.size_bytes (SizeTracker.multi_stage e) = m /\
         SizeTracker.size_bytes (SizeTracker.single_stage e) = s)).
Proof.
  assert (F : file tracker = f).
  { unfold SizeTracker.init in I.
    destruct (SizeTracker._load_history f); [|discriminate].
    injection I as <-. reflexivity. }
  unfold SizeTracker.main. rewrite I.
  destruct (SizeTracker.arg_report a);
    [split; [intros _; split; [reflexivity|intros; reflexivity]|discriminate]|].
  destruct (SizeTracker.arg_export_csv a);
    [split; [intros _; split; [reflexivity|intros; reflexivity]|discriminate]|].
  split; [discriminate|]. intros _. split; [|split].
  - intro N.
    destruct (new_entry_missing (SizeTracker.arg_multi_stage a)
                (SizeTracker.arg_single_stage a) (SizeTracker.arg_commit a) w N)
      as (lines & E & _).
    unfold SizeTracker.track_images. rewrite E.
    cbn [SizeTracker.main_ending SizeTracker.main_file SizeTracker.main_printed].
    split; [reflexivity|]. split; [exact F|].
    rewrite app_comm_cons. apply last_last.
  - intros m Im Is. unfold SizeTracker.track_images.
    rewrite (new_entry_zero _ _ _ w m Im Is).
    split; [reflexivity|exact F].
  - intros m s Im Is Hz W.
    rewrite (track_images_found _ _ _ _ _ _
               (new_entry_found _ _ _ w m s Im Is Hz)).
    rewrite W. split; [reflexivity|].
    eexists. split; [|split]; reflexivity.
Qed.

Lemma size_main_outcome_witness :
  SizeTracker.main_ending (SizeTracker.main size_args nothing_found None)
  = SizeTracker.Exited 1.
Proof.
  destruct (size_main_outcome size_args nothing_found None (mkState [] None)
              eq_refl) as (_ & T).
  destruct (T eq_refl) as (N & _).
  apply N. left. exact Logic.I.
Defined.

End CommandLine.

(** ** The shape of the CSV files *)

Section CsvShape.
Import Py Store.
Local Open Scope list_scope.

Lemma count_char_append (c : ascii) (a b : string) :
  count_char c (a ++ b) = (count_char c a + count_char c b)%nat.
Proof.
  induction a as [|x a IH]; simpl; [reflexivity|]. rewrite IH. lia.
Qed.

Lemma plain_append (a b : string) : plain a -> plain b -> plain (a ++ b).
Proof.
  unfold plain. intros (A1 & A2) (B1 & B2).
  rewrite !count_char_append, A1, A2, B1, B2. split; reflexivity.
Qed.

Lemma plain_digits (d : Decimal.uint) : plain (NilEmpty.string_of_uint d).
Proof.
  unfold plain. induction d; simpl; try (split; reflexivity); exact IHd.
Qed.

Lemma plain_str_int (z : Z) : plain (str_int z).
Proof.
  unfold str_int, NilZero.string_of_int.
  assert (U : forall d, plain (NilZero.string_of_uint d)).
  { intro d. destruct d; try apply (plain_digits (_ d)).
    split; reflexivity. }
  destruct (Z.to_int z) as [d|d].
  - apply U.
  - apply (plain_append "-" _); [split; reflexivity|apply U].
Qed.

Lemma plain_frac_digits (fuel : nat) (r : Q) : plain (frac_digits fuel r).
Proof.
  revert r. induction fuel as [|k IH]; intro r; simpl.
  - split; reflexivity.
  - destruct (Qeqb0 r); [split; reflexivity|].
    apply plain_append; [apply plain_str_int|apply IH].
Qed.

Lemma plain_str_float (x : Q) : plain (str_float x).
Proof.
  unfold str_float.
  apply plain_append; [destruct (Qltb x 0); split; reflexivity|].
  apply plain_append; [apply plain_str_int|].
  apply (plain_append "." _); [split; reflexivity|].
  destruct (String.eqb _ ""); [split; reflexivity|apply plain_frac_digits].
Qed.

Lemma plain_str_number (x : number) : plain (str_number x).
Proof. destruct x; [apply plain_str_int|apply plain_str_float]. Qed.

(** The ten values of a row hold no comma and no newline when the four
    texts of the build hold none. *)
Lemma plain_cells (b : BuildTimeTracker.build) :
  plain_build b -> Forall plain (BuildTimeTracker.csv_cells b).
Proof.
  intros (T & C & B & I). unfold BuildTimeTracker.csv_cells.
  apply Forall_cons; [exact T|]. apply Forall_cons; [exact C|].
  apply Forall_cons; [exact B|]. apply Forall_cons; [exact I|].
  apply Forall_cons; [apply plain_str_float|].
  apply Forall_cons; [apply plain_str_int|].
  apply Forall_cons; [apply plain_str_int|].
  apply Forall_cons; [apply plain_str_number|].
  apply Forall_cons.
  { destruct (BuildTimeTracker.image_size_bytes b); cbn;
      [split; reflexivity|split; reflexivity|apply plain_str_int]. }
  apply Forall_cons; [|apply Forall_nil].
  destruct (BuildTimeTracker.no_cache b); split; reflexivity.
Qed.

Lemma plain_size_cells (e : SizeTracker.entry) :
  plain_entry e -> Forall plain (SizeTracker.csv_cells e).
Proof.
  intros (T & C & M & S). unfold SizeTracker.csv_cells.
  apply Forall_cons; [exact T|]. apply Forall_cons; [exact C|].
  apply Forall_cons; [apply plain_str_int|]. apply Forall_cons; [exact M|].
  apply Forall_cons; [apply plain_str_int|]. apply Forall_cons; [exact S|].
  apply Forall_cons; [apply plain_str_int|].
  apply Forall_cons; [apply plain_str_float|apply Forall_nil].
Qed.

(** Values without comma and newline, joined by commas and ended by a
    newline: one comma fewer than there are values, and one newline. *)
Lemma joined_line (cells : list string) :
  cells <> [] -> Forall plain cells ->
  count_char comma (String.concat "," cells ++ nl)
  = (List.length cells - 1)%nat /\
  count_char newline (String.concat "," cells ++ nl) = 1%nat.
Proof.
  intros Hne Hp.
  assert (G : count_char comma (String.concat "," cells)
              = (List.length cells - 1)%nat /\
              count_char newline (String.concat "," cells) = O).
  { clear Hne. induction Hp as [|c rest (C1 & C2) Hr (I1 & I2)].
    - split; reflexivity.
    - destruct rest as [|d rest].
      + simpl. split; assumption.
      + change (String.concat "," (c :: d :: rest))
          with (c ++ "," ++ String.concat "," (d :: rest))%string.
        rewrite !count_char_append, C1, C2, I1, I2.
        simpl. split; lia. }
  destruct G as (G1 & G2).
  rewrite !count_char_append, G1, G2. simpl. split; lia.
Qed.

Lemma newlines_written (lines : list string) :
  (forall line, In line lines -> count_char newline line = 1%nat) ->
  count_char newline (written lines) = List.length lines.
Proof.
  induction lines as [|l rest IH]; intro H; [reflexivity|].
  cbn [written]. rewrite count_char_append, (H l) by (left; reflexivity).
  rewrite IH by (intros x Hx; apply H; right; exact Hx). reflexivity.
Qed.

Lemma size_csv_writes_same (cells : list string) :
  SizeTracker.csv_writes cells = BuildTimeTracker.csv_writes cells.
Proof.
  induction cells as [|c rest IH]; [reflexivity|].
  destruct rest as [|d rest]; [reflexivity|].
  change (SizeTracker.csv_writes (c :: d :: rest))
    with ((c ++ ",")%string :: SizeTracker.csv_writes (d :: rest)).
  rewrite IH. reflexivity.
Qed.

Lemma size_written_rows (entries : list SizeTracker.entry) :
  written (flat_map (fun e => SizeTracker.csv_writes (SizeTracker.csv_cells e))
                    entries)
  = written (map size_csv_line entries).
Proof.
  induction entries as [|e rest IH]; [reflexivity|].
  cbn [flat_map map written]. rewrite written_app, IH.
  rewrite size_csv_writes_same, written_row by discriminate. reflexivity.
Qed.

(** X14.  The build-time CSV export of a history that is not empty, whose
    timestamps, commits, build types and image names hold no comma and no
    newline: the file is the header line followed by one line per record,
    in the order of the history; every line has ten fields (nine commas)
    and ends in its only newline, so the file has one line more than the
    history has records.  Of an empty history no file is written. *)
Theorem export_csv_shape (filename : string) (t : BuildTimeTracker.tracker)
    (Hne : history t <> [])
    (Hp : forall b, In b (history t) -> plain_build b) :
  let lines := map csv_line (history t) in
  fst (BuildTimeTracker.export_csv filename t)
  = Some (BuildTimeTracker.csv_header ++ written lines)%string /\
  List.length lines = List.length (history t) /\
  (forall line, In line lines ->
     count_char comma line = 9%nat /\ count_char newline line = 1%nat) /\
  count_char comma BuildTimeTracker.csv_header = 9%nat /\
  count_char newline (BuildTimeTracker.csv_header ++ written lines)
  = S (List.length (history t)) /\
  (forall f, fst (BuildTimeTracker.export_csv filename (mkState [] f)) = None).
Proof.
  cbv zeta.
  assert (L : forall line, In line (map csv_line (history t)) ->
                count_char comma line = 9%nat /\
                count_char newline line = 1%nat).
  { intros line Hl. apply in_map_iff in Hl. destruct Hl as (b & <- & Hb).
    apply (joined_line (BuildTimeTracker.csv_cells b));
      [discriminate|apply plain_cells; apply Hp; exact Hb]. }
  split; [apply (export_csv_layout filename t Hne)|].
  split; [apply length_map|]. split; [exact L|].
  split; [reflexivity|]. split; [|reflexivity].
  rewrite count_char_append, newlines_written, length_map.
  - reflexivity.
  - intros line Hl. apply L. exact Hl.
Qed.

Lemma export_csv_shape_witness :
  count_char newline
    (BuildTimeTracker.csv_header ++ written (map csv_line (history all_null)))
  = 3%nat.
Proof.
  apply (export_csv_shape "build-history.csv" all_null).
  - discriminate.
  - intros b [<-|[<-|[]]]; repeat split.
Defined.

(** X15.  The size CSV export, under the same assumption on the texts of
    the entries (timestamp, commit and the two readable sizes): the header
    line followed by one line per entry in order, eight fields a line, one
    line more than there are entries; nothing is written of an empty
    history. *)
Theorem size_export_csv_shape (filename : string) (t : SizeTracker.tracker)
    (Hne : history t <> [])
    (Hp : forall e, In e (history t) -> plain_entry e) :
  let lines := map size_csv_line (history t) in
  fst (SizeTracker.export_csv filename t)
  = Some (SizeTracker.csv_header ++ written lines)%string /\
  List.length lines = List.length (history t) /\
  (forall line, In line lines ->
     count_char comma line = 7%nat /\ count_char newline line = 1%nat) /\
  count_char comma SizeTracker.csv_header = 7%nat /\
  count_char newline (SizeTracker.csv_header ++ written lines)
  = S (List.length (history t)) /\
  (forall f, fst (SizeTracker.export_csv filename (mkState [] f)) = None).
Proof.
  cbv zeta.
  assert (L : forall line, In line (map size_csv_line (history t)) ->
                count_char comma line = 7%nat /\
                count_char newline line = 1%nat).
  { intros line Hl. apply in_map_iff in Hl. destruct Hl as (e & <- & He).
    apply (joined_line (SizeTracker.csv_cells e));
      [discriminate|apply plain_size_cells; apply Hp; exact He]. }
  split.
  { unfold SizeTracker.export_csv.
    assert (N : SizeTracker.non_empty (history t) = true)
      by (destruct (history t); [contradiction|reflexivity]).
    rewrite N. cbn [fst]. rewrite concat_written. cbn [written].
    rewrite size_written_rows. reflexivity. }
  split; [apply length_map|]. split; [exact L|].
  split; [reflexivity|]. split; [|reflexivity].
  rewrite count_char_append, newlines_written, length_map.
  - reflexivity.
  - intros line Hl. apply L. exact Hl.
Qed.

Lemma size_export_csv_shape_witness :
  count_char newline
    (SizeTracker.csv_header
       ++ written (map size_csv_line (history (mkState [size_sample] None))))
  = 2%nat.
Proof.
  apply (size_export_csv_shape "size-history.csv" (mkState [size_sample] None)).
  - discriminate.
  - intros e [<-|[]]. repeat split.
Defined.

End CsvShape.

(** ** A tracked build in the reports that follow *)

Section Composition.
Import Py Store BuildTimeTracker.
Local Open Scope list_scope.

Lemma last_n_snoc {A : Type} (n : nat) (l : list A) (x : A) :
  last_n (S n) (l ++ [x]) = last_n n l ++ [x].
Proof.
  unfold last_n. rewrite length_app. simpl List.length.
  replace (List.length l + 1 - S n)%nat with (List.length l - n)%nat by lia.
  rewrite skipn_app.
  replace (List.length l - n - List.length l)%nat with O by lia.
  reflexivity.
Qed.

Lemma written_snoc (lines : list string) (x : string) :
  written (lines ++ [x]) = (written lines ++ x)%string.
Proof.
  rewrite written_app. cbn [written]. rewrite append_empty. reflexivity.
Qed.

(** X16.  After a call of [track_build] that returns its entry, on a
    tracker whose durations are not negative and with a clock that did not
    run backwards: the durations are still not negative, so the
    performance report completes, and the row of the new entry is the last
    row of its table of recent builds; and the line of the new entry is the
    last line of the CSV export. *)
Theorem tracked_build_is_reported (c : call) (t : tracker) (e : build)
    (filename : string)
    (Hd : durations_non_negative t)
    (Hc : 0 <= elapsed (call_world c))
    (H : outcome (snd (track c t)) = inl (Some e)) :
  let t' := fst (track c t) in
  durations_non_negative t' /\
  (exists before,
      generate_performance_report t'
      = (before ++ [recent_row e] ++ frame_bottom, inl tt)) /\
  (exists before,
      fst (export_csv filename t') = Some (before ++ csv_line e)%string).
Proof.
  cbv zeta.
  assert (E : history (fst (track c t)) = history t ++ [e]).
  { destruct (built c) eqn:B.
    - destruct (track_built c t B) as (e' & out & T). rewrite T in *.
      destruct (write (call_world c)); try discriminate.
      cbn in H. injection H as <-. reflexivity.
    - destruct (track_not_built c t B) as (_ & N). rewrite N in H.
      discriminate. }
  assert (D : durations_non_negative (fst (track c t))).
  { intros b Hb. rewrite E in Hb. apply in_app_or in Hb.
    destruct Hb as [Hb|[<-|[]]]; [apply Hd; exact Hb|].
    destruct (appended_entry c t e E) as (output & _ & ->).
    cbn [duration_seconds]. apply round_n_2_nonneg. exact Hc. }
  assert (N : history (fst (track c t)) <> []).
  { rewrite E. intro X. apply app_eq_nil in X. destruct X as (_ & X).
    discriminate. }
  split; [exact D|]. split.
  - rewrite (report_parts _ D N), recent_section_printed. cbn [printed fst].
    assert (R : last_n 5 (history (fst (track c t)))
                = last_n 4 (history t) ++ [e])
      by (rewrite E; apply (last_n_snoc 4)).
    rewrite R, map_app. cbn [map].
    exists (report_banner (fst (track c t))
              ++ printed (multi_stage_section
                            (of_type "multi-stage" (history (fst (track c t)))))
              ++ printed (single_stage_section
                            (of_type "single-stage" (history (fst (track c t)))))
              ++ printed (comparison_section
                            (of_type "multi-stage" (history (fst (track c t))))
                            (of_type "single-stage" (history (fst (track c t)))))
              ++ recent_frame_top
              ++ map recent_row (last_n 4 (history t))).
    rewrite <- !app_assoc. reflexivity.
  - destruct (export_csv_layout filename _ N) as (X & _). rewrite X.
    rewrite E, map_app. cbn [map]. rewrite written_snoc.
    eexists. rewrite <- append_assoc. reflexivity.
Qed.

End Composition.

Section CompositionWitness.
Import Py Store BuildTimeTracker.
Local Open Scope list_scope.

Lemma tracked_build_is_reported_witness :
  exists e before,
    outcome (snd (track (call_of WriteOk) (mkState [] None))) = inl (Some e) /\
    generate_performance_report (fst (track (call_of WriteOk) (mkState [] None)))
    = (before ++ [recent_row e] ++ frame_bottom, inl tt).
Proof.
  destruct (proj1 (appended_ok_returns (call_of WriteOk) (mkState [] None))
              eq_refl) as (e & R).
  assert (Hd : durations_non_negative (mkState [] None)) by (intros b []).
  assert (Hc : 0 <= elapsed (call_world (call_of WriteOk)))
    by (unfold Qle; simpl; lia).
  destruct (tracked_build_is_reported (call_of WriteOk) (mkState [] None) e
              "build-history.csv" Hd Hc R) as (_ & (before & P) & _).
  exists e, before. split; assumption.
Defined.

Lemma sizes_stay_present_witness :
  sizes_present
    (history (after_calls (mkState [] None)
                [call_of WriteOk; failing_call; call_of OpenFails])).
Proof.
  apply (sizes_stay_present (mkState [] None)
           [call_of WriteOk; failing_call; call_of OpenFails]).
  intros b [].
Defined.

End CompositionWitness.

(** ** Rounding at the boundaries of the formatters *)

Section Boundaries.
Import Py.

(** Just below an integer whose predecessor is odd, rounding gives the
    integer. *)
Lemma round_half_even_up (y : Q) (n : Z) :
  Z.even (n - 1) = false ->
  inject_Z n - (1 # 2) <= y -> y < inject_Z n ->
  round_half_even y = n.
Proof.
  intros Ev L U. unfold round_half_even.
  assert (F : Qfloor y = (n - 1)%Z).
  { assert (A : (n - 1 <= Qfloor y)%Z).
    { apply floor_at_least. rewrite inject_Z_sub.
      change (inject_Z 1) with 1. lra. }
    pose proof (floor_below y n U). lia. }
  rewrite F, Ev.
  assert (D : inject_Z (n - 1) == inject_Z n - 1)
    by (rewrite inject_Z_sub; reflexivity).
  destruct (Qcompare (y - inject_Z (n - 1)) (1 # 2)) eqn:C.
  - lia.
  - apply Qlt_alt in C. lra.
  - lia.
Qed.

Lemma format_f_2_up (x : Q) (n : Z) :
  0 <= x -> Z.even (n - 1) = false ->
  inject_Z n - (1 # 2) <= x * 100 -> x * 100 < inject_Z n ->
  format_f 2 x
  = (str_int (n / 100) ++ "." ++ zfill 2 (str_int (n mod 100)))%string.
Proof.
  intros H0 Ev L U. unfold format_f.
  assert (A : Qabs x == x) by (apply Qabs_pos; exact H0).
  assert (R : round_half_even (Qabs x * inject_Z (pow10 2)) = n).
  { apply round_half_even_up; [exact Ev| |];
      change (inject_Z (pow10 2)) with 100; rewrite A; assumption. }
  rewrite R.
  assert (E : Qltb x 0 = false) by (apply Qltb_ge; exact H0).
  rewrite E. reflexivity.
Qed.

(** X17.  The formatters choose the unit before they round, so a value
    just below a threshold is shown at the threshold in the smaller unit:
    a duration from 59.995 s up to 60 s reads ["60.00s"], not ["1m 0s"],
    and a size from 1023.995 KB up to 1 MB (1048571 to 1048575 bytes)
    reads ["1024.00 KB"], in both trackers. *)
Theorem formatters_round_after_choosing_unit :
  (forall d : Q,
      (59995 # 1000) <= d -> d < 60 ->
      BuildTimeTracker.format_duration d = "60.00s") /\
  (forall b : Q,
      (104857088 # 100) <= b -> b < 1048576 ->
      BuildTimeTracker.get_human_readable_size (Some b) = "1024.00 KB" /\
      SizeTracker.get_human_readable_size (Some b) = ret "1024.00 KB").
Proof.
  split.
  - intros d L U. unfold BuildTimeTracker.format_duration.
    assert (E : Qltb d 60 = true) by (apply Qltb_lt; exact U).
    rewrite E.
    rewrite (format_f_2_up d 6000); [reflexivity|lra|reflexivity| |];
      change (inject_Z 6000) with 6000; lra.
  - intros b L U.
    assert (S : BuildTimeTracker.size_ladder ["B"; "KB"; "MB"; "GB"] b
                = "1024.00 KB").
    { cbn [BuildTimeTracker.size_ladder].
      assert (E1 : Qltb b 1024 = false) by (apply Qltb_ge; lra).
      assert (E2 : Qltb (b / 1024) 1024 = true).
      { apply Qltb_lt. apply Qlt_shift_div_r; lra. }
      rewrite E1, E2.
      assert (P : 0 <= b / 1024) by (apply Qle_shift_div_l; lra).
      assert (X : b / 1024 * 100 == b * (100 # 1024)) by (field).
      rewrite (format_f_2_up (b / 1024) 102400);
        [reflexivity|exact P|reflexivity| |];
        change (inject_Z 102400) with 102400; rewrite X; lra. }
    split; [exact S|].
    unfold SizeTracker.get_human_readable_size.
    rewrite size_ladder_same, S. reflexivity.
Qed.

Lemma formatters_round_after_choosing_unit_witness :
  BuildTimeTracker.format_duration (59999 # 1000) = "60.00s" /\
  BuildTimeTracker.get_human_readable_size (Some 1048575) = "1024.00 KB".
Proof.
  destruct formatters_round_after_choosing_unit as (D & S).
  split.
  - apply D; unfold Qle, Qlt; simpl; lia.
  - apply S; unfold Qle, Qlt; simpl; lia.
Defined.

End Boundaries.

(** ** The groups of the reports *)

Section Groups.
Import Py Store BuildTimeTracker.
Local Open Scope list_scope.

(** X18.  The reports group the builds by two labels only.  No build is in
    both groups, each group keeps the order of the history, and the number
    of builds the report announces is the two group sizes plus the number
    of builds with any other label: those are counted in the total and
    shown in the table of recent builds, but enter no statistics. *)
Theorem groups_partition_known_types (t : tracker) :
  let multi := of_type "multi-stage" (history t) in
  let single := of_type "single-stage" (history t) in
  let others := filter (fun b => negb (known_type b)) (history t) in
  List.length (history t)
  = (List.length multi + List.length single + List.length others)%nat /\
  (forall b, In b multi -> ~ In b single) /\
  (forall b, In b multi \/ In b single <->
             In b (history t) /\ known_type b = true) /\
  (List.length multi + List.length single = List.length (history t)
   <-> forall b, In b (history t) -> known_type b = true)%nat.
Proof.
  cbv zeta. unfold of_type, known_type.
  assert (C : List.length (history t)
              = (List.length (filter (fun b => String.eqb (build_type b) "multi-stage")
                                     (history t))
                 + List.length (filter (fun b => String.eqb (build_type b) "single-stage")
                                       (history t))
                 + List.length (filter (fun b => negb (String.eqb (build_type b) "multi-stage"
                                                       || String.eqb (build_type b) "single-stage"))
                                       (history t)))%nat).
  { induction (history t) as [|b rest IH]; [reflexivity|].
    simpl. destruct (String.eqb_spec (build_type b) "multi-stage") as [E|N].
    - rewrite E. simpl. lia.
    - destruct (String.eqb (build_type b) "single-stage"); simpl; lia. }
  split; [exact C|]. split; [|split].
  - intros b Hm Hs. apply filter_In in Hm, Hs.
    destruct Hm as (_ & Hm). destruct Hs as (_ & Hs).
    apply String.eqb_eq in Hm, Hs. rewrite Hm in Hs. discriminate.
  - intro b. rewrite !filter_In, orb_true_iff. tauto.
  - split.
    + intros E b Hb.
      destruct (String.eqb (build_type b) "multi-stage"
                || String.eqb (build_type b) "single-stage") eqn:K;
        [reflexivity|].
      assert (I : In b (filter (fun b => negb (String.eqb (build_type b) "multi-stage"
                                               || String.eqb (build_type b) "single-stage"))
                               (history t))).
      { apply filter_In. split; [exact Hb|]. rewrite K. reflexivity. }
      destruct (filter (fun b => negb (String.eqb (build_type b) "multi-stage"
                                       || String.eqb (build_type b) "single-stage"))
                       (history t)) as [|x xs]; [destruct I|].
      simpl in C. lia.
    + intro K.
      assert (Z : filter (fun b => negb (String.eqb (build_type b) "multi-stage"
                                         || String.eqb (build_type b) "single-stage"))
                         (history t) = []).
      { clear C. induction (history t) as [|b rest IH]; [reflexivity|].
        simpl. rewrite (K b) by (left; reflexivity). simpl.
        apply IH. intros x Hx. apply K. right. exact Hx. }
      rewrite Z in C. simpl in C. lia.
Qed.

End Groups.
